(** * Employee-List-Formatter: the directory pipeline, embedded and verified

    The repository holds two versions of one Streamlit script:
    - [Employee_List_Formatter.py] (module [Formatter] below),
    - an earlier copy whose header calls it [app.py] (module [App] below).

    Both parse a JSON payload, flatten [department_employees] into a list of
    entries, drop exact duplicates and render a text directory.  The pure
    functions of both scripts are embedded here as Rocq functions over a small
    model of the Python values they handle; the button handler is embedded as
    a function returning the Streamlit calls it makes. *)

From Stdlib Require Import NArith ZArith Bool Lia SpecFloat.
From stdpp Require Import base decidable option list gmap strings.

Local Open Scope N_scope.
Local Open Scope list_scope.
#[local] Set Warnings "-register-all".

(** ** Python values *)

(** A [str] is a sequence of Unicode code points. *)
Abbreviation char := N.
Abbreviation pystr := (list N).

(** A string literal of the source (ASCII only). *)
Definition py (s : string) : pystr :=
  (λ a, Ascii.N_of_ascii a) <$> String.list_ascii_of_string s.

Definition nl : char := 10.

(** What [json.loads] returns: [None], [bool], [int], [float], [str], [list]
    and [dict].  A [JObj] lists the items of the dict in insertion order;
    [json.loads] keeps the last value of a repeated key, and so does
    [dict_get]. *)
Inductive json :=
  | JNull
  | JBool (b : bool)
  | JInt (z : Z)
  | JFloat (f : spec_float)
  | JStr (s : pystr)
  | JArr (l : list json)
  | JObj (items : list (pystr * json)).

Abbreviation dict := (list (list N * json)).

(** Python truth value: [None], [False], zero, and empty strings, lists and
    dicts are false. *)
Definition truthy (v : json) : bool :=
  match v with
  | JNull => false
  | JBool b => b
  | JInt z => negb (z =? 0)%Z
  | JFloat (S754_zero _) => false
  | JFloat _ => true
  | JStr [] => false
  | JStr _ => true
  | JArr [] => false
  | JArr _ => true
  | JObj [] => false
  | JObj _ => true
  end.

(** [x or d] *)
Definition py_or (x d : json) : json := if truthy x then x else d.

(** [s or ""] when [s] is a [str]. *)
Definition or_empty (s : pystr) : pystr :=
  match s with [] => [] | _ => s end.

(** The exceptions the scripts can meet once the payload is parsed. *)
Inductive pyerr := AttributeError | TypeError | UnicodeEncodeError.

Inductive result (A : Type) :=
  | Ok (a : A)
  | Raise (e : pyerr).
Arguments Ok {A} a.
Arguments Raise {A} e.

Global Instance result_ret : MRet result := λ A a, Ok a.
Global Instance result_bind : MBind result := λ A B f m,
  match m with Ok a => f a | Raise e => Raise e end.
Global Instance result_fmap : FMap result := λ A B f m,
  match m with Ok a => Ok (f a) | Raise e => Raise e end.

(** [d.get(key, default)] on a dict. *)
Definition dict_get (d : dict) (key : pystr) (default : json) : json :=
  fold_left (λ found kv, if bool_decide (kv.1 = key) then kv.2 else found)
            d default.

(** [v.get(key, default)]: only a dict has the method. *)
Definition py_get (v : json) (key : pystr) (default : json) : result json :=
  match v with
  | JObj d => Ok (dict_get d key default)
  | _ => Raise AttributeError
  end.

(** The sequence a [for x in v] loop walks: the elements of a list, the
    one-character strings of a [str], the keys of a dict; anything else is
    not iterable. *)
Definition py_iter (v : json) : result (list json) :=
  match v with
  | JArr l => Ok l
  | JStr s => Ok ((λ c, JStr [c]) <$> s)
  | JObj d => Ok ((λ kv, JStr kv.1) <$> d)
  | _ => Raise TypeError
  end.

(** A [for] loop whose body may raise: [body] takes the loop state and the
    current element. *)
Fixpoint for_each {A S : Type} (body : S → A → result S)
    (xs : list A) (s : S) : result S :=
  match xs with
  | [] => Ok s
  | x :: xs' => s' ← body s x; for_each body xs' s'
  end.

(** ** Strings: whitespace, digits, the two regular expressions *)

(** [str.isspace] of one code point (CPython's [_PyUnicode_IsWhitespace]). *)
Definition whitespace : list char :=
  [0x9; 0xA; 0xB; 0xC; 0xD; 0x1C; 0x1D; 0x1E; 0x1F; 0x20; 0x85; 0xA0;
   0x1680; 0x2000; 0x2001; 0x2002; 0x2003; 0x2004; 0x2005; 0x2006; 0x2007;
   0x2008; 0x2009; 0x200A; 0x2028; 0x2029; 0x202F; 0x205F; 0x3000].

Definition isspace (c : char) : bool := existsb (N.eqb c) whitespace.

(** What [\d] matches in a [str] pattern: the decimal digits of Unicode
    (category Nd), here those of Unicode 14.0 (CPython 3.11).  Each entry
    starts a block of ten digits; the mathematical digits U+1D7CFormatter..U+1D7FF
    are five such blocks in a row. *)
Definition decimal_blocks : list char :=
  [0x30; 0x660; 0x6F0; 0x7C0; 0x966; 0x9E6; 0xA66; 0xAE6; 0xB66; 0xBE6;
   0xC66; 0xCE6; 0xD66; 0xDE6; 0xE50; 0xED0; 0xF20; 0x1040; 0x1090; 0x17E0;
   0x1810; 0x1946; 0x19D0; 0x1A80; 0x1A90; 0x1B50; 0x1BB0; 0x1C40; 0x1C50;
   0xA620; 0xA8D0; 0xA900; 0xA9D0; 0xA9F0; 0xAA50; 0xABF0; 0xFF10; 0x104A0;
   0x10D30; 0x11066; 0x110F0; 0x11136; 0x111D0; 0x112F0; 0x11450; 0x114D0;
   0x11650; 0x116C0; 0x11730; 0x118E0; 0x11950; 0x11C50; 0x11D50; 0x11DA0;
   0x16A60; 0x16AC0; 0x16B50;
   0x1D7CE; 0x1D7D8; 0x1D7E2; 0x1D7EC; 0x1D7F6;
   0x1E140; 0x1E2F0; 0x1E950; 0x1FBF0].

Definition isdecimal (c : char) : bool :=
  existsb (λ b, (b <=? c) && (c <? b + 10)) decimal_blocks.

(** [s.lstrip()], [s.rstrip()], [s.strip()] *)
Fixpoint lstrip (s : pystr) : pystr :=
  match s with
  | [] => []
  | c :: t => if isspace c then lstrip t else s
  end.

Fixpoint rstrip (s : pystr) : pystr :=
  match s with
  | [] => []
  | c :: t =>
      match rstrip t with
      | [] => if isspace c then [] else [c]
      | r => c :: r
      end
  end.

Definition strip (s : pystr) : pystr := rstrip (lstrip s).

(** [v.strip()]: only a [str] has the method. *)
Definition py_strip (v : json) : result pystr :=
  match v with
  | JStr s => Ok (strip s)
  | _ => Raise AttributeError
  end.

(** [s[i:j]] for [0 <= i <= j], and [s.startswith(p)]. *)
Definition slice (i j : nat) (s : pystr) : pystr := drop i (take j s).

Definition startswith (s p : pystr) : bool :=
  bool_decide (take (length p) s = p).

(** [sep.join(parts)] *)
Fixpoint join (sep : pystr) (parts : list pystr) : pystr :=
  match parts with
  | [] => []
  | [p] => p
  | p :: rest => p ++ sep ++ join sep rest
  end.

(** [re.sub(r"\D+", "", s)]: every maximal run of non-digits is deleted, so
    the digits remain, in order. *)
Definition re_sub_nondigits (s : pystr) : pystr :=
  filter (λ c, isdecimal c = true) s.

(** [re.sub(r"\n{3,}", "\n\n", s)]: the matches are the maximal runs of
    three or more newlines, each replaced by two.  [run] counts the newlines
    read since the last other character. *)
Definition newline_run (run : nat) : pystr :=
  if (3 <=? run)%nat then [nl; nl] else replicate run nl.

Fixpoint re_sub_newlines_from (run : nat) (s : pystr) : pystr :=
  match s with
  | [] => newline_run run
  | c :: t =>
      if c =? nl then re_sub_newlines_from (S run) t
      else newline_run run ++ c :: re_sub_newlines_from 0 t
  end.

Definition re_sub_newlines (s : pystr) : pystr := re_sub_newlines_from 0 s.

(** ** Directory entries *)

(** The dict both scripts build for an employee. *)
Record entry := Entry {
  name : pystr;
  position : pystr;
  office_raw : pystr;
  office_fmt : pystr;
  email : pystr
}.

(** The tuple [(e["name"], e["position"], e["office_raw"], e["email"])]. *)
Definition key : Type := pystr * pystr * pystr * pystr.
Definition entry_key (e : entry) : key :=
  (name e, position e, office_raw e, email e).

(** The second loop of both extractors: [seen] is the set of keys met,
    [deduped] the list built so far. *)
Fixpoint dedupe_loop (entries : list entry) (seen : gset key)
    (deduped : list entry) : list entry :=
  match entries with
  | [] => deduped
  | e :: rest =>
      if bool_decide (entry_key e ∈ seen) then dedupe_loop rest seen deduped
      else dedupe_loop rest ({[entry_key e]} ∪ seen) (deduped ++ [e])
  end.

Definition dedupe (entries : list entry) : list entry :=
  dedupe_loop entries ∅ [].

(** US phone layout of ten digits: [f"({d[0:3]}) {d[3:6]}-{d[6:10]}"]. *)
Definition us_layout (d : pystr) : pystr :=
  py "(" ++ slice 0 3 d ++ py ") " ++ slice 3 6 d ++ py "-" ++ slice 6 10 d.

(** ** The Streamlit calls of the button handler *)

(** [s.encode("utf-8")]: a surrogate code point cannot be encoded. *)
Definition utf8_char (c : char) : result (list N) :=
  if c <? 0x80 then Ok [c]
  else if c <? 0x800 then
    Ok [N.lor 0xC0 (N.shiftr c 6); N.lor 0x80 (N.land c 0x3F)]
  else if (0xD800 <=? c) && (c <=? 0xDFFF) then Raise UnicodeEncodeError
  else if c <? 0x10000 then
    Ok [N.lor 0xE0 (N.shiftr c 12);
        N.lor 0x80 (N.land (N.shiftr c 6) 0x3F);
        N.lor 0x80 (N.land c 0x3F)]
  else
    Ok [N.lor 0xF0 (N.shiftr c 18);
        N.lor 0x80 (N.land (N.shiftr c 12) 0x3F);
        N.lor 0x80 (N.land (N.shiftr c 6) 0x3F);
        N.lor 0x80 (N.land c 0x3F)].

Definition encode_utf8 (s : pystr) : result (list N) :=
  @concat N <$> mapM utf8_char s.

(** What [json.loads(raw)] does: it returns the payload or raises a
    [JSONDecodeError] [e]; [msg] is [str(e)]. *)
Inductive loaded :=
  | Parsed (payload : json)
  | JSONDecodeError (msg : pystr).

(** One row of the table handed to [st.dataframe]. *)
Record row := Row {
  Name : pystr;
  Position : pystr;
  Office : pystr;
  Email : pystr
}.

Inductive st_call :=
  | st_error (body : pystr)
  | st_warning (body : pystr)
  | st_subheader (body : pystr)
  | st_code (body language : pystr)
  | st_download_button (label : pystr) (data : list N)
      (file_name mime : pystr)
  | st_dataframe (data : list row).

(** How a run of the handler ends: at its last statement, at [st.stop()],
    or with an exception nobody catches. *)
Inductive ending :=
  | Completed
  | Stopped
  | Uncaught (e : pyerr).

Definition table_row (e : entry) : row :=
  Row (name e) (position e) (office_fmt e) (email e).

(** The name test [if not name: continue] and the tests of the renderers:
    a [str] is true when it is not empty. *)
Definition nonempty (s : pystr) : bool :=
  match s with [] => false | _ => true end.

(** ** Employee_List_Formatter.py *)
Module Formatter.

Definition digits_only (s : pystr) : pystr :=
  re_sub_nondigits (or_empty s).

Definition format_us_phone (raw : pystr) : pystr :=
  let d := digits_only raw in
  if (length d =? 10)%nat then us_layout d
  else if (length d =? 11)%nat && startswith d (py "1") then
    let d := drop 1 d in
    us_layout d
  else strip (or_empty raw).

(** [normalize] receives what [emp.get] returned, any JSON value. *)
Definition normalize (s : json) : result pystr :=
  py_strip (py_or s (JStr [])).

(** The body of the inner loop: [continue] leaves [entries] as it is. *)
Definition add_employee (entries : list entry) (emp : json)
    : result (list entry) :=
  name ← py_get emp (py "contact_name") (JStr []) ≫= normalize;
  if negb (nonempty name) then Ok entries
  else
    position ← py_get emp (py "employee_position") (JStr []) ≫= normalize;
    office_raw ← py_get emp (py "office_number") (JStr []) ≫= normalize;
    email ← py_get emp (py "email_address") (JStr []) ≫= normalize;
    Ok (entries ++ [Entry name position office_raw
                          (format_us_phone office_raw) email]).

(** The body of the outer loop. *)
Definition add_block (entries : list entry) (block : json)
    : result (list entry) :=
  found ← py_get (py_or block (JObj [])) (py "employees") (JArr []);
  let employees := py_or found (JArr []) in
  emps ← py_iter employees;
  for_each add_employee emps entries.

(** The first loop of [to_entries]: the entries before deduplication. *)
Definition collect (payload : json) : result (list entry) :=
  found ← py_get payload (py "department_employees") (JArr []);
  let dept_emps := py_or found (JArr []) in
  blocks ← py_iter dept_emps;
  for_each add_block blocks [].

Definition to_entries (payload : json) : result (list entry) :=
  entries ← collect payload;
  Ok (dedupe entries).

(** The lines one entry appends in [render_directory]. *)
Definition append_entry (lines : list pystr) (e : entry) : list pystr :=
  let lines := lines ++ [py "    " ++ name e] in
  let lines := if nonempty (position e) then lines ++ [position e]
               else lines in
  let lines := if nonempty (office_fmt e)
               then lines ++ [py "Office: " ++ office_fmt e] else lines in
  let lines := if nonempty (email e)
               then lines ++ [py "Email: " ++ email e] else lines in
  lines ++ [[]].

Definition render_directory (entries : list entry) : pystr :=
  let lines := [] in
  let lines := lines ++ [py "## Employee Phone Number Directory"] in
  let lines := lines ++ [[]] in
  let lines := fold_left append_entry entries lines in
  let out := join [nl] lines in
  rstrip (re_sub_newlines out) ++ [nl].

(** The handler of the "Generate Directory" button.  [json.loads] and
    [json.dumps(_, indent=2)] belong to the Python library. *)
Section handler.
Variable json_loads : pystr → loaded.
Variable json_dumps : json → pystr.

Definition on_generate (raw : pystr) (pretty show_table : bool)
    : list st_call * ending :=
  match json_loads raw with
  | JSONDecodeError e =>
      ([st_error (py "Invalid JSON: " ++ e)], Stopped)
  | Parsed payload =>
      let shown :=
        if pretty
        then [st_subheader (py "Parsed JSON (pretty)");
              st_code (json_dumps payload) (py "json")]
        else [] in
      match to_entries payload with
      | Raise e => (shown, Uncaught e)
      | Ok entries =>
          if bool_decide (entries = []) then
            (shown ++
             [st_warning
                (py "No employees found under `department_employees`.")],
             Stopped)
          else
            let directory_md := render_directory entries in
            let shown :=
              shown ++ [st_subheader (py "Directory Output");
                        st_code directory_md (py "markdown")] in
            match encode_utf8 directory_md with
            | Raise e => (shown, Uncaught e)
            | Ok data =>
                let shown :=
                  shown ++
                  [st_download_button (py "Download directory.md") data
                     (py "directory.md") (py "text/markdown")] in
                if show_table then
                  (shown ++
                   [st_subheader (py "Parsed Employees");
                    st_dataframe (table_row <$> entries)],
                   Completed)
                else (shown, Completed)
            end
      end
  end.
End handler.

End Formatter.

(** ** The earlier copy, [app.py] *)
Module App.

Definition digits_only (s : pystr) : pystr :=
  re_sub_nondigits (or_empty s).

Definition format_us_phone (raw : pystr) : pystr :=
  let d := digits_only raw in
  if (length d =? 10)%nat then us_layout d
  else if (length d =? 11)%nat && startswith d (py "1") then
    let d := drop 1 d in
    us_layout d
  else or_empty raw.

Definition normalize_name (name : json) : result pystr :=
  py_strip (py_or name (JStr [])).

Definition normalize_position (pos : json) : result pystr :=
  py_strip (py_or pos (JStr [])).

Definition normalize_email (email : json) : result pystr :=
  e ← py_strip (py_or email (JStr []));
  Ok (if nonempty e then e else []).

(** The body of the inner loop: the four fields are read before the name
    is tested. *)
Definition add_employee (entries : list entry) (e : json)
    : result (list entry) :=
  name ← py_get e (py "contact_name") (JStr []) ≫= normalize_name;
  position ← py_get e (py "employee_position") (JStr [])
               ≫= normalize_position;
  office ← (found ← py_get e (py "office_number") (JStr []);
            py_strip (py_or found (JStr [])));
  email ← py_get e (py "email_address") (JStr []) ≫= normalize_email;
  if negb (nonempty name) then Ok entries
  else
    Ok (entries ++ [Entry name position office
                          (format_us_phone office) email]).

Definition add_block (entries : list entry) (block : json)
    : result (list entry) :=
  found ← py_get (py_or block (JObj [])) (py "employees") (JArr []);
  let employees := py_or found (JArr []) in
  emps ← py_iter employees;
  for_each add_employee emps entries.

Definition collect (payload : json) : result (list entry) :=
  found ← py_get payload (py "department_employees") (JArr []);
  let dept_emps := py_or found (JArr []) in
  blocks ← py_iter dept_emps;
  for_each add_block blocks [].

Definition to_directory_entries (payload : json) : result (list entry) :=
  entries ← collect payload;
  Ok (dedupe entries).

(** The lines one entry appends in [render_directory_markdown]: the
    position line is appended even when the position is empty. *)
Definition append_entry (lines : list pystr) (e : entry) : list pystr :=
  let lines := lines ++ [py "    " ++ name e] in
  let lines := lines ++ [if nonempty (position e) then position e
                         else []] in
  let lines := if nonempty (office_fmt e)
               then lines ++ [py "Office: " ++ office_fmt e] else lines in
  let lines := if nonempty (email e)
               then lines ++ [py "Email: " ++ email e] else lines in
  lines ++ [[]].

(** No line is [None], so the filter [ln is not None] keeps them all. *)
Definition render_directory_markdown (entries : list entry) : pystr :=
  let lines := [] in
  let lines :=
    lines ++ [py "## Employee Phone Number Directory" ++ [nl]] in
  let lines := fold_left append_entry entries lines in
  let out := join [nl] lines in
  rstrip (re_sub_newlines out) ++ [nl].

(** The handler of the "Generate Directory" button.  [json.loads] and
    [json.dumps(_, indent=2)] belong to the Python library. *)
Section handler.
Variable json_loads : pystr → loaded.
Variable json_dumps : json → pystr.

Definition on_generate (raw : pystr) (pretty show_table : bool)
    : list st_call * ending :=
  match json_loads raw with
  | JSONDecodeError e =>
      ([st_error (py "Invalid JSON: " ++ e)], Stopped)
  | Parsed payload =>
      let shown :=
        if pretty
        then [st_subheader (py "Parsed JSON (pretty)");
              st_code (json_dumps payload) (py "json")]
        else [] in
      match to_directory_entries payload with
      | Raise e => (shown, Uncaught e)
      | Ok entries =>
          if bool_decide (entries = []) then
            (shown ++
             [st_warning
                (py "No employees found under `department_employees`.")],
             Stopped)
          else
            let directory_md := render_directory_markdown entries in
            let shown :=
              shown ++ [st_subheader (py "Directory Output");
                        st_code directory_md (py "markdown")] in
            match encode_utf8 directory_md with
            | Raise e => (shown, Uncaught e)
            | Ok data =>
                let shown :=
                  shown ++
                  [st_download_button (py "Download directory.md") data
                     (py "directory.md") (py "text/markdown")] in
                if show_table then
                  (shown ++
                   [st_subheader (py "Parsed Employees");
                    st_dataframe (table_row <$> entries)],
                   Completed)
                else (shown, Completed)
            end
      end
  end.
End handler.

End App.

(** ** The extractors, seen from their inner loop body

    [to_entries] and [to_directory_entries] walk the payload with the same
    two nested loops and differ in the body of the inner one. *)
Section walk_definitions.
Variable add_employee : list entry → json → result (list entry).

Definition walk_block (entries : list entry) (block : json)
    : result (list entry) :=
  found ← py_get (py_or block (JObj [])) (py "employees") (JArr []);
  emps ← py_iter (py_or found (JArr []));
  for_each add_employee emps entries.

Definition walk_payload (payload : json) : result (list entry) :=
  found ← py_get payload (py "department_employees") (JArr []);
  blocks ← py_iter (py_or found (JArr []));
  for_each walk_block blocks [].

(** The entries of one block: those of its employees, in order.  The
    entries of the payload: those of its blocks, in order. *)
Definition block_entries (block : json) : result (list entry) :=
  found ← py_get (py_or block (JObj [])) (py "employees") (JArr []);
  emps ← py_iter (py_or found (JArr []));
  @concat entry <$> mapM (add_employee []) emps.

Definition payload_entries (payload : json) : result (list entry) :=
  found ← py_get payload (py "department_employees") (JArr []);
  blocks ← py_iter (py_or found (JArr []));
  @concat entry <$> mapM block_entries blocks.
End walk_definitions.

(** Both scripts read a field of an employee dict [d] the same way:
    [(d.get(k, "") or "").strip()]. *)
Definition read_field (d : dict) (k : pystr) : result pystr :=
  py_strip (py_or (dict_get d k (JStr [])) (JStr [])).

(** ** The specification's words, for comparison *)

(** Keep the first occurrence of each identity tuple, in the order of the
    input. *)
Fixpoint first_occurrences (es : list entry) : list entry :=
  match es with
  | [] => []
  | e :: rest =>
      e :: filter (λ x, entry_key x ≠ entry_key e) (first_occurrences rest)
  end.

(** The same, by positions: the entry at position [i] is kept when no
    entry before position [i] has its key. *)
Definition first_positions (es : list entry) : list entry :=
  (filter (λ ie, entry_key ie.2 ∉ entry_key <$> take ie.1 es)
          (imap pair es)).*2.

(** The block of lines of one entry: the indented name, then the position,
    office and email lines that are not empty, then the blank separator. *)
Definition entry_lines (e : entry) : list pystr :=
  [py "    " ++ name e]
  ++ (if nonempty (position e) then [position e] else [])
  ++ (if nonempty (office_fmt e) then [py "Office: " ++ office_fmt e] else [])
  ++ (if nonempty (email e) then [py "Email: " ++ email e] else [])
  ++ [[]].

(** The expected shape of a payload.  A field is a string, or any false
    value ([null] among them), or absent. *)
Definition str_or_false (v : json) : bool :=
  match v with
  | JStr _ => true
  | _ => negb (truthy v)
  end.

Definition list_or_false (each : json → bool) (v : json) : bool :=
  match v with
  | JArr l => forallb each l
  | _ => negb (truthy v)
  end.

Definition employee_fields : list pystr :=
  [py "contact_name"; py "employee_position"; py "office_number";
   py "email_address"].

Definition employee_ok (emp : json) : bool :=
  match emp with
  | JObj d => forallb (λ k, str_or_false (dict_get d k (JStr []))) employee_fields
  | _ => false
  end.

Definition block_ok (block : json) : bool :=
  match block with
  | JObj d => list_or_false employee_ok (dict_get d (py "employees") (JArr []))
  | _ => negb (truthy block)
  end.

Definition payload_ok (payload : json) : bool :=
  match payload with
  | JObj d =>
      list_or_false block_ok (dict_get d (py "department_employees") (JArr []))
  | _ => false
  end.

(** A name that normalizes to the empty string: absent or false ([null]
    among them), or a string of whitespace only. *)
Definition blank (v : json) : bool :=
  match v with
  | JStr s => forallb isspace s
  | _ => negb (truthy v)
  end.

(** What a run of the handler shows the user, read off its Streamlit
    calls: the first error, warning or markdown code block decides. *)
Inductive outcome :=
  | Malformed (message : pystr)
  | NoData
  | Rendered (directory_md : pystr)
  | NothingShown.

Fixpoint outcome_of (calls : list st_call) : outcome :=
  match calls with
  | [] => NothingShown
  | st_error message :: _ => Malformed message
  | st_warning _ :: _ => NoData
  | st_code body language :: rest =>
      if bool_decide (language = py "markdown") then Rendered body
      else outcome_of rest
  | _ :: rest => outcome_of rest
  end.

(** What the handler shows before extraction when the pretty-print box is
    ticked. *)
Definition pretty_shown (json_dumps : json → pystr) (pretty : bool)
    (payload : json) : list st_call :=
  if pretty
  then [st_subheader (py "Parsed JSON (pretty)");
        st_code (json_dumps payload) (py "json")]
  else [].


(** An interpreter whose [json.loads] returns [payload] for every text. *)
Definition accepting_loads (payload : json) (raw : pystr) : loaded :=
  Parsed payload.

(** ** Further vocabulary *)

(** The lines [render_directory_markdown] of [app.py] appends for one
    entry: the position line is there even when the position is empty. *)
Definition app_entry_lines (e : entry) : list pystr :=
  [py "    " ++ name e]
  ++ [if nonempty (position e) then position e else []]
  ++ (if nonempty (office_fmt e) then [py "Office: " ++ office_fmt e] else [])
  ++ (if nonempty (email e) then [py "Email: " ++ email e] else [])
  ++ [[]].

(** [{"employees": emps}] and [{"department_employees": blocks}] *)
Definition department (emps : list json) : json :=
  JObj [(py "employees", JArr emps)].

Definition departments (blocks : list json) : json :=
  JObj [(py "department_employees", JArr blocks)].

(** An employee object whose four fields are strings. *)
Definition employee (n p o m : pystr) : json :=
  JObj [(py "contact_name", JStr n); (py "employee_position", JStr p);
        (py "office_number", JStr o); (py "email_address", JStr m)].

(** What both extractors keep of every entry they build: a name that is
    not empty, four trimmed fields, and the office formatted from the raw
    office. *)
Definition well_formed (e : entry) : Prop :=
  name e ≠ []
  ∧ strip (name e) = name e
  ∧ strip (position e) = position e
  ∧ strip (office_raw e) = office_raw e
  ∧ strip (email e) = email e
  ∧ office_fmt e = Formatter.format_us_phone (office_raw e).

(** ** Sample payloads *)

(** The employee of the specification's example. *)
Definition jane_doe : json :=
  JObj [(py "contact_name", JStr (py "Jane Doe"));
        (py "employee_position", JStr (py "Manager"));
        (py "office_number", JStr (py "555-123-4567"));
        (py "email_address", JStr (py "jane@x.com"))].

Definition jane_doe_entry : entry :=
  Entry (py "Jane Doe") (py "Manager") (py "555-123-4567")
        (py "(555) 123-4567") (py "jane@x.com").

(** An employee without a position. *)
Definition john_roe : json :=
  JObj [(py "contact_name", JStr (py "John Roe"));
        (py "office_number", JStr (py "555-123-4567"))].

Definition john_roe_entry : entry :=
  Entry (py "John Roe") [] (py "555-123-4567") (py "(555) 123-4567") [].

(** [{"department_employees": [{"employees": emps}]}] *)
Definition one_department (emps : list json) : json :=
  JObj [(py "department_employees", JArr [JObj [(py "employees", JArr emps)]])].


(** An employee with a blank name and a number for its office. *)
Definition nameless_numeric : json :=
  JObj [(py "contact_name", JStr (py "  ")); (py "office_number", JInt 5)].

(** * Properties *)

(** ** Strings *)

Lemma or_empty_id (s : pystr) : or_empty s = s.
Proof. by destruct s. Qed.

Lemma re_sub_nondigits_digits (d : pystr) :
  forallb isdecimal d = true → re_sub_nondigits d = d.
Proof.
  unfold re_sub_nondigits. induction d as [|c d IH]; [done|].
  cbn [forallb]. intros [Hc Hd]%andb_prop.
  rewrite filter_cons, decide_True by done. by rewrite IH.
Qed.

Lemma rstrip_idemp (s : pystr) : rstrip (rstrip s) = rstrip s.
Proof.
  induction s as [|c t IH]; simpl; [done|].
  destruct (rstrip t) as [|r0 r] eqn:Hr.
  - destruct (isspace c) eqn:Hc; simpl; [done|]. by rewrite Hc.
  - change (rstrip (c :: r0 :: r)) with
      (match rstrip (r0 :: r) with
       | [] => if isspace c then [] else [c]
       | x => c :: x
       end).
    by rewrite IH.
Qed.

Lemma lstrip_head (s : pystr) :
  match lstrip s with [] => True | c :: _ => isspace c = false end.
Proof.
  induction s as [|c t IH]; simpl; [done|].
  destruct (isspace c) eqn:Hc; [done|]. simpl. done.
Qed.

Lemma rstrip_keeps_head (c : char) (t : pystr) :
  isspace c = false → ∃ r, rstrip (c :: t) = c :: r.
Proof.
  intros Hc. simpl. destruct (rstrip t); [rewrite Hc|]; eauto.
Qed.

Lemma strip_head (s : pystr) :
  match strip s with [] => True | c :: _ => isspace c = false end.
Proof.
  unfold strip. pose proof (lstrip_head s) as H.
  destruct (lstrip s) as [|c t]; [done|].
  destruct (rstrip_keeps_head c t H) as [r ->]. done.
Qed.

Lemma lstrip_fixed (s : pystr) :
  match s with [] => True | c :: _ => isspace c = false end → lstrip s = s.
Proof. destruct s as [|c t]; simpl; [done|]. by intros ->. Qed.

Lemma strip_idemp (s : pystr) : strip (strip s) = strip s.
Proof.
  unfold strip at 1. rewrite (lstrip_fixed (strip s)) by apply strip_head.
  unfold strip. apply rstrip_idemp.
Qed.

Lemma strip_blank (s : pystr) : forallb isspace s = true → strip s = [].
Proof.
  unfold strip. induction s as [|c t IH]; simpl; [done|].
  intros [Hc Ht]%andb_prop. rewrite Hc. auto.
Qed.

Lemma rstrip_nil_blank (s : pystr) : rstrip s = [] → forallb isspace s = true.
Proof.
  induction s as [|c t IH]; simpl; [done|].
  destruct (rstrip t); [|done].
  destruct (isspace c); [|done]. intros _. by apply IH.
Qed.

Lemma strip_nil_blank (s : pystr) : strip s = [] → forallb isspace s = true.
Proof.
  unfold strip. induction s as [|c t IH]; simpl; [done|].
  destruct (isspace c) eqn:Hc; simpl; [done|].
  destruct (rstrip t); [rewrite Hc|]; done.
Qed.

(** ** The phone formatter *)

(** The fallback of [Formatter.format_us_phone]: when the
    digits are neither ten, nor eleven with a leading [1], the result is the
    trimmed input. *)
Lemma format_us_phone_fallback (raw : pystr) :
  length (Formatter.digits_only raw) ≠ 10%nat →
  ¬ (length (Formatter.digits_only raw) = 11%nat
     ∧ head (Formatter.digits_only raw) = Some 49) →
  Formatter.format_us_phone raw = strip raw.
Proof.
  intros H10 H11. unfold Formatter.format_us_phone.
  destruct (Nat.eqb_spec (length (Formatter.digits_only raw)) 10); [done|].
  destruct (Nat.eqb_spec (length (Formatter.digits_only raw)) 11) as [Hl|]; simpl.
  - unfold startswith. rewrite bool_decide_eq_false_2; [by rewrite or_empty_id|].
    intros Hp. apply H11. split; [done|].
    change (py "1") with [49] in Hp.
    destruct (Formatter.digits_only raw); simpl in *; congruence.
  - by rewrite or_empty_id.
Qed.

Lemma us_layout_of_ten_digits (d : pystr) :
  length d = 10%nat →
  forallb isdecimal d = true →
  Formatter.format_us_phone d = us_layout d
  ∧ App.format_us_phone d = us_layout d.
Proof.
  intros Hlen Hdig.
  unfold Formatter.format_us_phone, App.format_us_phone, Formatter.digits_only,
    App.digits_only.
  rewrite or_empty_id, re_sub_nondigits_digits, Hlen by done. done.
Qed.

(** C5: a string of exactly ten digit characters [d] is formatted as
    ["(" d[0:3] ") " d[3:6] "-" d[6:10]], by both versions of the
    formatter. *)
Theorem format_us_phone_ten_digits (d : pystr) :
  length d = 10%nat →
  forallb isdecimal d = true →
  Formatter.format_us_phone d
    = py "(" ++ slice 0 3 d ++ py ") " ++ slice 3 6 d ++ py "-" ++ slice 6 10 d
  ∧ App.format_us_phone d
    = py "(" ++ slice 0 3 d ++ py ") " ++ slice 3 6 d ++ py "-" ++ slice 6 10 d.
Proof. apply us_layout_of_ten_digits. Qed.

Lemma format_us_phone_ten_digits_witness :
  Formatter.format_us_phone (py "5551234567") = py "(555) 123-4567"
  ∧ App.format_us_phone (py "5551234567") = py "(555) 123-4567".
Proof.
  apply (format_us_phone_ten_digits (py "5551234567")); reflexivity.
Defined.

(** C6: for a string [s] of exactly eleven digit characters whose first
    character is [1] (code point 49), formatting [s] and formatting [s[1:]]
    give the same result, in both versions of the formatter. *)
Theorem format_us_phone_leading_one (s : pystr) :
  length s = 11%nat →
  forallb isdecimal s = true →
  head s = Some 49 →
  Formatter.format_us_phone s = Formatter.format_us_phone (drop 1 s)
  ∧ App.format_us_phone s = App.format_us_phone (drop 1 s).
Proof.
  intros Hlen Hdig Hone.
  destruct s as [|c t]; [done|]. simpl in Hone, Hlen, Hdig.
  injection Hone as ->. apply andb_prop in Hdig as [_ Hdig].
  assert (length t = 10%nat) as Ht by lia.
  change (drop 1 (49 :: t)) with t.
  destruct (us_layout_of_ten_digits t Ht Hdig) as [-> ->].
  unfold Formatter.format_us_phone, App.format_us_phone, Formatter.digits_only,
    App.digits_only.
  rewrite or_empty_id, re_sub_nondigits_digits
    by (simpl; by rewrite Hdig).
  simpl length. rewrite Ht. done.
Qed.

Lemma format_us_phone_leading_one_witness :
  Formatter.format_us_phone (py "15551234567") = Formatter.format_us_phone (py "5551234567")
  ∧ App.format_us_phone (py "15551234567")
    = App.format_us_phone (py "5551234567").
Proof.
  apply (format_us_phone_leading_one (py "15551234567")); reflexivity.
Defined.


(** ** Deduplication *)

Section dedupe.
Implicit Types (e : entry) (es acc : list entry) (seen : gset key).

Lemma filter_all {A} (P : A → Prop) `{!∀ x, Decision (P x)} (l : list A) :
  (∀ x, x ∈ l → P x) → filter P l = l.
Proof.
  induction l as [|x l IH]; intros Hall; [done|].
  rewrite filter_cons, decide_True by (apply Hall; left).
  rewrite IH; [done|]. intros y Hy. apply Hall. by right.
Qed.

(** The loop with its set and its accumulator computes the first
    occurrences whose key is not in the set yet. *)
Lemma dedupe_loop_first_occurrences es seen acc :
  dedupe_loop es seen acc
  = acc ++ filter (λ x, entry_key x ∉ seen) (first_occurrences es).
Proof.
  revert seen acc. induction es as [|e rest IH]; intros seen acc; simpl.
  - by rewrite filter_nil, app_nil_r.
  - rewrite filter_cons. case_bool_decide as Hin.
    + rewrite decide_False by (intros Hn; by apply Hn). rewrite IH. f_equal.
      rewrite list_filter_filter. apply list_filter_iff.
      intros x. split; [|by intros [? _]]. intros Hx. split; [done|].
      intros Heq. apply Hx. by rewrite Heq.
    + rewrite decide_True by done. rewrite IH, <- app_assoc. simpl.
      do 2 f_equal. rewrite list_filter_filter. apply list_filter_iff.
      intros x. rewrite not_elem_of_union, elem_of_singleton. tauto.
Qed.

Lemma dedupe_first_occurrences es : dedupe es = first_occurrences es.
Proof.
  unfold dedupe. rewrite dedupe_loop_first_occurrences. simpl.
  apply filter_all. intros x _. apply not_elem_of_empty.
Qed.

Lemma first_occurrences_sublist es : first_occurrences es `sublist_of` es.
Proof.
  induction es as [|e rest IH]; simpl; [done|].
  apply sublist_skip. etrans; [apply sublist_filter|done].
Qed.

Lemma first_occurrences_NoDup es :
  NoDup (entry_key <$> first_occurrences es).
Proof.
  induction es as [|e rest IH]; simpl; [constructor|].
  apply NoDup_cons. split.
  - intros (x & Hk & Hx)%list_elem_of_fmap.
    apply list_elem_of_filter in Hx as [Hne _]. by apply Hne.
  - eapply sublist_NoDup; [exact IH|].
    apply fmap_sublist, sublist_filter.
Qed.

Lemma first_occurrences_covers es e :
  e ∈ es → entry_key e ∈ entry_key <$> first_occurrences es.
Proof.
  induction es as [|e0 rest IH]; simpl; [by inversion 1|].
  intros [->|Hin]%elem_of_cons; [left|].
  destruct (decide (entry_key e = entry_key e0)) as [->|Hne]; [left|].
  right. apply IH in Hin as (x & Hk & Hx)%list_elem_of_fmap.
  apply list_elem_of_fmap. exists x. split; [done|].
  apply list_elem_of_filter. split; [congruence|done].
Qed.

(** An entry is kept exactly at the first position where its key occurs:
    the entries before it in the input all have another key. *)
Lemma first_occurrences_lookup es e :
  e ∈ first_occurrences es ↔
  ∃ i, es !! i = Some e ∧ entry_key e ∉ entry_key <$> take i es.
Proof.
  induction es as [|e0 rest IH]; simpl.
  - split; [by inversion 1|]. by intros (i & ? & _).
  - rewrite elem_of_cons, list_elem_of_filter, IH. split.
    + intros [->|(Hne & i & Hi & Hfirst)].
      * exists 0%nat. split; [done|]. simpl. by inversion 1.
      * exists (S i). split; [done|]. simpl.
        intros [?|?]%elem_of_cons; [congruence|done].
    + intros ([|i] & Hi & Hfirst); simpl in *.
      * left. congruence.
      * right. apply not_elem_of_cons in Hfirst as [Hne Hfirst]. eauto.
Qed.

Lemma first_positions_from (pre rest : list entry) :
  (filter (λ ie, entry_key ie.2 ∉ entry_key <$> take ie.1 (pre ++ rest))
          (imap (λ i x, (length pre + i, x)%nat) rest)).*2
  = filter (λ x, entry_key x ∉ entry_key <$> pre) (first_occurrences rest).
Proof.
  revert pre. induction rest as [|e t IH]; intros pre; [done|].
  assert ((filter
             (λ ie, entry_key ie.2 ∉ entry_key <$> take ie.1 (pre ++ e :: t))
             (imap ((λ i x, (length pre + i, x)%nat) ∘ S) t)).*2
          = filter (λ x, entry_key x ∉ entry_key <$> pre)
              (filter (λ x, entry_key x ≠ entry_key e)
                 (first_occurrences t))) as Htail.
  { rewrite (imap_ext _ (λ i x, (length (pre ++ [e]) + i, x)%nat))
      by (intros; simpl; f_equal; rewrite length_app; simpl; lia).
    replace (pre ++ e :: t) with ((pre ++ [e]) ++ t)
      by (by rewrite <- app_assoc).
    rewrite IH, list_filter_filter. apply list_filter_iff. intros x.
    rewrite fmap_app, not_elem_of_app. simpl.
    rewrite list_elem_of_singleton. done. }
  rewrite imap_cons, filter_cons. simpl fst. simpl snd.
  rewrite Nat.add_0_r, take_app_length. simpl first_occurrences.
  rewrite (filter_cons _ e).
  case_decide; [rewrite fmap_cons|]; by rewrite Htail.
Qed.

Lemma first_occurrences_positions es :
  first_occurrences es = first_positions es.
Proof.
  unfold first_positions.
  rewrite <- (filter_all (λ x, entry_key x ∉ entry_key <$> [])
                (first_occurrences es)) by (intros x _; by inversion 1).
  by rewrite <- first_positions_from.
Qed.

Lemma first_occurrences_fixed es :
  NoDup (entry_key <$> es) → first_occurrences es = es.
Proof.
  induction es as [|e rest IH]; simpl; [done|].
  intros [Hnotin Hnd]%NoDup_cons. rewrite IH by done. f_equal.
  apply filter_all. intros x Hx Heq. apply Hnotin.
  rewrite <- Heq. by apply list_elem_of_fmap_2.
Qed.
End dedupe.

(** ** The result monad *)

Lemma bind_Ok_inv {A B} (m : result A) (f : A → result B) (b : B) :
  m ≫= f = Ok b → ∃ a, m = Ok a ∧ f a = Ok b.
Proof. destruct m as [a|]; simpl; [eauto|done]. Qed.

Lemma fmap_Ok_inv {A B} (m : result A) (f : A → B) (b : B) :
  f <$> m = Ok b → ∃ a, m = Ok a ∧ b = f a.
Proof. destruct m as [a|]; simpl; [|done]. intros [= <-]. eauto. Qed.

Lemma mapM_Ok_Forall2 {A B} (f : A → result B) (xs : list A) (ys : list B) :
  mapM f xs = Ok ys ↔ Forall2 (λ x y, f x = Ok y) xs ys.
Proof.
  revert ys. induction xs as [|x xs IH]; intros ys; simpl.
  - split; [intros [= <-]; constructor|by inversion 1].
  - split.
    + intros (y & Hy & (k & Hk & [= <-])%bind_Ok_inv)%bind_Ok_inv.
      constructor; [done|]. by apply IH.
    + inversion 1 as [|? y ? k Hy Hk]; subst. rewrite Hy. simpl.
      apply IH in Hk. by rewrite Hk.
Qed.

Lemma mapM_Ok_total {A B} (f : A → result B) (xs : list A) :
  Forall (λ x, ∃ y, f x = Ok y) xs → ∃ ys, mapM f xs = Ok ys.
Proof.
  induction 1 as [|x xs [y Hy] _ [ys IH]]; simpl; [by eexists|].
  rewrite Hy. simpl. rewrite IH. by eexists.
Qed.

(** A loop whose body only appends to its state, and appends the same
    elements whatever the state, builds the concatenation of what every
    element appends, in the order of the elements. *)
Lemma for_each_concat {A B} (body : list B → A → result (list B)) :
  (∀ acc x, body acc x = (acc ++.) <$> body [] x) →
  ∀ xs acc,
    for_each body xs acc = (λ news, acc ++ concat news) <$> mapM (body []) xs.
Proof.
  intros Hbody xs. induction xs as [|x xs IH]; intros acc; simpl.
  - by rewrite app_nil_r.
  - rewrite (Hbody acc x). destruct (body [] x) as [new|]; simpl; [|done].
    rewrite IH. destruct (mapM (body []) xs); simpl; [|done].
    by rewrite app_assoc.
Qed.

(** ** Payloads of the expected shape *)

Lemma py_or_false (v d : json) : truthy v = false → py_or v d = d.
Proof. unfold py_or. by intros ->. Qed.

Lemma py_or_true (v d : json) : truthy v = true → py_or v d = v.
Proof. unfold py_or. by intros ->. Qed.

Lemma list_or_false_iter (each : json → bool) (v : json) :
  list_or_false each v = true →
  ∃ l, py_iter (py_or v (JArr [])) = Ok l ∧ Forall (λ x, each x = true) l.
Proof.
  assert (negb (truthy v) = true →
          ∃ l, py_iter (py_or v (JArr [])) = Ok l
               ∧ Forall (λ x, each x = true) l) as Hfalse.
  { intros Hv%negb_true_iff. rewrite py_or_false by done. exists []. by split. }
  destruct v as [|b|z|f|s|l|d]; try exact Hfalse.
  destruct l as [|x l]; [intros _; by apply Hfalse|].
  intros Hall. exists (x :: l). split; [done|].
  apply Forall_forall. intros y Hy.
  change (forallb each (x :: l) = true) in Hall.
  rewrite forallb_forall in Hall. apply Hall. by apply list_elem_of_In.
Qed.

Lemma block_ok_get (block : json) :
  block_ok block = true →
  ∃ found,
    py_get (py_or block (JObj [])) (py "employees") (JArr []) = Ok found
    ∧ list_or_false employee_ok found = true.
Proof.
  assert (negb (truthy block) = true →
          ∃ found,
            py_get (py_or block (JObj [])) (py "employees") (JArr [])
              = Ok found
            ∧ list_or_false employee_ok found = true) as Hfalse.
  { intros Hv%negb_true_iff. rewrite py_or_false by done.
    by exists (JArr []). }
  destruct block as [|b|z|f|s|l|d]; try exact Hfalse.
  destruct d as [|kv d]; [intros _; by apply Hfalse|].
  intros Hd. rewrite py_or_true by done. simpl. eauto.
Qed.

(** ** The two nested loops of the extractors *)
Section walk.
Variable add_employee : list entry → json → result (list entry).
Notation walk_block := (walk_block add_employee).
Notation walk_payload := (walk_payload add_employee).
Notation block_entries := (block_entries add_employee).
Notation payload_entries := (payload_entries add_employee).

Hypothesis add_employee_appends :
  ∀ acc emp, add_employee acc emp = (acc ++.) <$> add_employee [] emp.

Lemma walk_block_appends acc block :
  walk_block acc block = (acc ++.) <$> block_entries block.
Proof.
  unfold walk_block, block_entries.
  destruct (py_get _ _ _) as [found|]; simpl; [|done].
  destruct (py_iter _) as [emps|]; simpl; [|done].
  rewrite for_each_concat by done.
  by destruct (mapM _ emps).
Qed.

Lemma walk_block_nil block : walk_block [] block = block_entries block.
Proof. rewrite walk_block_appends. by destruct (block_entries block). Qed.

Lemma walk_payload_entries payload :
  walk_payload payload = payload_entries payload.
Proof.
  unfold walk_payload, payload_entries.
  destruct (py_get _ _ _) as [found|]; simpl; [|done].
  destruct (py_iter _) as [blocks|]; simpl; [|done].
  rewrite for_each_concat.
  - f_equal. induction blocks as [|b bs IH]; simpl; [done|].
    by rewrite walk_block_nil, IH.
  - intros acc b. rewrite walk_block_appends, walk_block_nil.
    by destruct (block_entries b).
Qed.

(** What holds of every list one employee adds holds of the whole
    walk. *)
Lemma walk_payload_Forall (P : entry → Prop) payload es :
  (∀ emp new, add_employee [] emp = Ok new → Forall P new) →
  walk_payload payload = Ok es → Forall P es.
Proof.
  intros Hemp. rewrite walk_payload_entries. unfold payload_entries.
  intros (found & _ & (blocks & _ & Hes)%bind_Ok_inv)%bind_Ok_inv.
  apply fmap_Ok_inv in Hes as (per_block & Hblocks & ->).
  apply Forall_concat. apply mapM_Ok_Forall2 in Hblocks.
  induction Hblocks as [|b l bs ls Hb _ IH]; constructor; [|done].
  unfold block_entries in Hb.
  apply bind_Ok_inv in Hb as (f & _ & (emps & _ & Hl)%bind_Ok_inv).
  apply fmap_Ok_inv in Hl as (news & Hnews & ->).
  apply Forall_concat. apply mapM_Ok_Forall2 in Hnews.
  induction Hnews; constructor; eauto.
Qed.

(** The walk returns on every payload of the expected shape, when the
    inner body returns on every employee of the expected shape. *)
Lemma walk_payload_total payload :
  (∀ emp, employee_ok emp = true → ∃ new, add_employee [] emp = Ok new) →
  payload_ok payload = true → ∃ es, walk_payload payload = Ok es.
Proof.
  intros Hemp Hok. rewrite walk_payload_entries.
  assert (∀ b, block_ok b = true → ∃ l, block_entries b = Ok l) as Hblock.
  { intros b (found & Hget & Hfound)%block_ok_get. unfold block_entries.
    rewrite Hget. simpl.
    apply list_or_false_iter in Hfound as (emps & -> & Hall). simpl.
    destruct (mapM_Ok_total (add_employee []) emps) as [news ->];
      [|by eexists].
    eapply Forall_impl; [exact Hall|]. auto. }
  unfold payload_entries. destruct payload as [| | | | | |d]; try done.
  simpl in Hok. simpl py_get. simpl mbind.
  apply list_or_false_iter in Hok as (blocks & -> & Hall). simpl.
  destruct (mapM_Ok_total block_entries blocks) as [ls ->]; [|by eexists].
  eapply Forall_impl; [exact Hall|]. auto.
Qed.
End walk.

(** ** One employee *)

Lemma read_field_trimmed d k s : read_field d k = Ok s → strip s = s.
Proof.
  unfold read_field. destruct (py_or _ _); simpl; try done.
  intros [= <-]. apply strip_idemp.
Qed.

Lemma read_field_str_or_false d k :
  str_or_false (dict_get d k (JStr [])) = true → ∃ s, read_field d k = Ok s.
Proof.
  unfold read_field.
  destruct (dict_get d k (JStr [])) as [|b|z|f|s|l|items];
    try (intros Hv%negb_true_iff; rewrite py_or_false by done; by eexists).
  intros _. unfold py_or. destruct (truthy (JStr s)); by eexists.
Qed.

Lemma read_field_blank d k :
  blank (dict_get d k (JStr [])) = true → read_field d k = Ok [].
Proof.
  unfold read_field.
  destruct (dict_get d k (JStr [])) as [|b|z|f|s|l|items];
    try (intros Hv%negb_true_iff; by rewrite py_or_false by done).
  intros Hs. unfold py_or. destruct (truthy (JStr s)); simpl; [|done].
  by rewrite strip_blank.
Qed.

Lemma normalize_email_strip (v : json) :
  App.normalize_email v = py_strip (py_or v (JStr [])).
Proof.
  unfold App.normalize_email. destruct (py_strip _) as [[|c s]|]; done.
Qed.

Lemma format_us_phone_agree (s : pystr) :
  strip s = s → Formatter.format_us_phone s = App.format_us_phone s.
Proof.
  intros Hs. unfold Formatter.format_us_phone, App.format_us_phone.
  change (App.digits_only s) with (Formatter.digits_only s).
  destruct (_ =? 10)%nat; [done|]. destruct (_ && _); [done|].
  by rewrite or_empty_id.
Qed.

Lemma formatter_add_employee_dict acc d :
  Formatter.add_employee acc (JObj d) =
    name ← read_field d (py "contact_name");
    if nonempty name then
      position ← read_field d (py "employee_position");
      office_raw ← read_field d (py "office_number");
      email ← read_field d (py "email_address");
      Ok (acc ++ [Entry name position office_raw
                        (Formatter.format_us_phone office_raw) email])
    else Ok acc.
Proof.
  unfold Formatter.add_employee, read_field, Formatter.normalize.
  simpl py_get. simpl mbind.
  destruct (py_strip (py_or (dict_get d (py "contact_name") _) _))
    as [name|]; simpl; [|done].
  by destruct (nonempty name).
Qed.

Lemma app_add_employee_dict acc d :
  App.add_employee acc (JObj d) =
    name ← read_field d (py "contact_name");
    position ← read_field d (py "employee_position");
    office ← read_field d (py "office_number");
    email ← read_field d (py "email_address");
    if nonempty name then
      Ok (acc ++ [Entry name position office
                        (App.format_us_phone office) email])
    else Ok acc.
Proof.
  unfold App.add_employee, read_field, App.normalize_name,
    App.normalize_position.
  simpl py_get. simpl mbind. rewrite normalize_email_strip.
  destruct (py_strip (py_or (dict_get d (py "contact_name") _) _))
    as [name|]; simpl; [|done].
  destruct (py_strip (py_or (dict_get d (py "employee_position") _) _))
    as [pos|]; simpl; [|done].
  destruct (py_strip (py_or (dict_get d (py "office_number") _) _))
    as [office|]; simpl; [|done].
  destruct (py_strip (py_or (dict_get d (py "email_address") _) _))
    as [mail|]; simpl; [|done].
  by destruct (nonempty name).
Qed.

Lemma formatter_add_employee_appends acc emp :
  Formatter.add_employee acc emp
  = (acc ++.) <$> Formatter.add_employee [] emp.
Proof.
  destruct emp as [| | | | | |d]; try done.
  rewrite !formatter_add_employee_dict.
  destruct (read_field d (py "contact_name")) as [name|]; [|done]. simpl.
  destruct (nonempty name); [|simpl; by rewrite app_nil_r].
  destruct (read_field d (py "employee_position")); simpl; [|done].
  destruct (read_field d (py "office_number")); simpl; [|done].
  by destruct (read_field d (py "email_address")).
Qed.

Lemma app_add_employee_appends acc emp :
  App.add_employee acc emp = (acc ++.) <$> App.add_employee [] emp.
Proof.
  destruct emp as [| | | | | |d]; try done.
  rewrite !app_add_employee_dict.
  destruct (read_field d (py "contact_name")) as [name|]; simpl; [|done].
  destruct (read_field d (py "employee_position")); simpl; [|done].
  destruct (read_field d (py "office_number")); simpl; [|done].
  destruct (read_field d (py "email_address")); simpl; [|done].
  destruct (nonempty name); simpl; [done|by rewrite app_nil_r].
Qed.

Lemma formatter_collect_walk payload :
  Formatter.collect payload = walk_payload Formatter.add_employee payload.
Proof. reflexivity. Qed.

Lemma app_collect_walk payload :
  App.collect payload = walk_payload App.add_employee payload.
Proof. reflexivity. Qed.

(** The entries before deduplication are those of the blocks in the order
    of the blocks, and in a block those of the employees in the order of
    the employees. *)
Lemma collect_traversal_order payload :
  Formatter.collect payload = payload_entries Formatter.add_employee payload
  ∧ App.collect payload = payload_entries App.add_employee payload.
Proof.
  split.
  - apply walk_payload_entries, formatter_add_employee_appends.
  - apply walk_payload_entries, app_add_employee_appends.
Qed.

(** What [app.py] adds for an employee, [Employee_List_Formatter.py] adds
    too. *)
Lemma app_add_employee_formatter emp new :
  App.add_employee [] emp = Ok new → Formatter.add_employee [] emp = Ok new.
Proof.
  destruct emp as [| | | | | |d]; try done.
  rewrite formatter_add_employee_dict, app_add_employee_dict.
  destruct (read_field d (py "contact_name")) as [name|]; [|done]. simpl.
  destruct (read_field d (py "employee_position")) as [pos|]; [|done]. simpl.
  destruct (read_field d (py "office_number")) as [office|] eqn:Hoff;
    [|done]. simpl.
  destruct (read_field d (py "email_address")) as [mail|]; [|done]. simpl.
  destruct (nonempty name); [|done].
  by rewrite (format_us_phone_agree office) by (by eapply read_field_trimmed).
Qed.

Lemma employee_ok_fields d k :
  employee_ok (JObj d) = true → k ∈ employee_fields →
  ∃ s, read_field d k = Ok s.
Proof.
  unfold employee_ok. rewrite forallb_forall. intros Hall Hk.
  apply read_field_str_or_false, Hall. by apply list_elem_of_In.
Qed.

Lemma app_add_employee_total emp :
  employee_ok emp = true → ∃ new, App.add_employee [] emp = Ok new.
Proof.
  destruct emp as [| | | | | |d]; try done. intros Hok.
  rewrite app_add_employee_dict.
  destruct (employee_ok_fields d (py "contact_name") Hok) as [? ->];
    [repeat constructor|].
  destruct (employee_ok_fields d (py "employee_position") Hok) as [? ->];
    [repeat constructor|].
  destruct (employee_ok_fields d (py "office_number") Hok) as [? ->];
    [repeat constructor|].
  destruct (employee_ok_fields d (py "email_address") Hok) as [? ->];
    [repeat constructor|].
  simpl. destruct (nonempty _); by eexists.
Qed.


Lemma Forall_in_sublist {A} (P : A → Prop) (l k : list A) :
  Forall P k → l `sublist_of` k → Forall P l.
Proof.
  rewrite !Forall_forall. intros Hk Hsub x Hx. apply Hk.
  by eapply elem_of_sublist.
Qed.

(** ** The extractors *)

Lemma to_entries_first_occurrences payload :
  Formatter.to_entries payload
    = first_occurrences <$> Formatter.collect payload
  ∧ App.to_directory_entries payload
    = first_occurrences <$> App.collect payload.
Proof.
  unfold Formatter.to_entries, App.to_directory_entries.
  split.
  - destruct (Formatter.collect payload); simpl; [|done].
    by rewrite dedupe_first_occurrences.
  - destruct (App.collect payload); simpl; [|done].
    by rewrite dedupe_first_occurrences.
Qed.

(** C2: both extractors return the entries met while walking the
    departments in order and, in a department, the employees in order, with
    only the first occurrence of every identity tuple kept: the entry at a
    position is kept exactly when no earlier entry has the same four
    fields.  The kept entries are in the order of the input, no tuple
    occurs twice, and every tuple of the input is represented. *)
Theorem extraction_keeps_first_occurrences (payload : json) :
  Formatter.to_entries payload
    = first_positions <$> payload_entries Formatter.add_employee payload
  ∧ App.to_directory_entries payload
    = first_positions <$> payload_entries App.add_employee payload
  ∧ ∀ es : list entry,
      dedupe es = first_positions es
      ∧ first_positions es `sublist_of` es
      ∧ NoDup (entry_key <$> first_positions es)
      ∧ ∀ e, e ∈ es → entry_key e ∈ entry_key <$> first_positions es.
Proof.
  destruct (to_entries_first_occurrences payload) as [-> ->].
  destruct (collect_traversal_order payload) as [-> ->].
  repeat split.
  - destruct (payload_entries _ _); simpl; [|done].
    by rewrite first_occurrences_positions.
  - destruct (payload_entries _ _); simpl; [|done].
    by rewrite first_occurrences_positions.
  - by rewrite dedupe_first_occurrences, first_occurrences_positions.
  - rewrite <- first_occurrences_positions. apply first_occurrences_sublist.
  - rewrite <- first_occurrences_positions. apply first_occurrences_NoDup.
  - rewrite <- first_occurrences_positions. apply first_occurrences_covers.
Qed.

(** C9: deduplicating a deduplicated list changes nothing, so rendering
    after a second deduplication gives the same text, with either
    renderer. *)
Theorem dedupe_idempotent (es : list entry) :
  dedupe (dedupe es) = dedupe es
  ∧ Formatter.render_directory (dedupe (dedupe es))
    = Formatter.render_directory (dedupe es)
  ∧ App.render_directory_markdown (dedupe (dedupe es))
    = App.render_directory_markdown (dedupe es).
Proof.
  assert (dedupe (dedupe es) = dedupe es) as ->; [|done].
  rewrite !dedupe_first_occurrences.
  apply first_occurrences_fixed, first_occurrences_NoDup.
Qed.



Lemma formatter_add_employee_total emp :
  employee_ok emp = true → ∃ new, Formatter.add_employee [] emp = Ok new.
Proof.
  intros [new Hnew]%app_add_employee_total.
  exists new. by apply app_add_employee_formatter.
Qed.

Lemma payload_entries_mono
    (f g : list entry → json → result (list entry)) payload es :
  (∀ emp new, f [] emp = Ok new → g [] emp = Ok new) →
  payload_entries f payload = Ok es → payload_entries g payload = Ok es.
Proof.
  intros Hfg. unfold payload_entries.
  destruct (py_get payload _ _) as [found|]; simpl; [|done].
  destruct (py_iter _) as [blocks|]; simpl; [|done].
  intros (ls & Hls & ->)%fmap_Ok_inv.
  enough (mapM (block_entries g) blocks = Ok ls) as -> by done.
  apply mapM_Ok_Forall2. apply mapM_Ok_Forall2 in Hls.
  eapply Forall2_impl; [exact Hls|]. clear Hls. intros b l.
  unfold block_entries.
  destruct (py_get (py_or b _) _ _) as [found'|]; simpl; [|done].
  destruct (py_iter _) as [emps|]; simpl; [|done].
  intros (news & Hnews & ->)%fmap_Ok_inv.
  enough (mapM (g []) emps = Ok news) as -> by done.
  apply mapM_Ok_Forall2. apply mapM_Ok_Forall2 in Hnews.
  eapply Forall2_impl; [exact Hnews|]. auto.
Qed.

Lemma extractors_total (payload : json) :
  payload_ok payload = true →
  (∃ es, Formatter.to_entries payload = Ok es)
  ∧ (∃ es, App.to_directory_entries payload = Ok es).
Proof.
  intros Hok. split.
  - destruct (walk_payload_total _ formatter_add_employee_appends payload
                formatter_add_employee_total Hok) as [es Hes].
    exists (dedupe es). unfold Formatter.to_entries.
    by rewrite formatter_collect_walk, Hes.
  - destruct (walk_payload_total _ app_add_employee_appends payload
                app_add_employee_total Hok) as [es Hes].
    exists (dedupe es). unfold App.to_directory_entries.
    by rewrite app_collect_walk, Hes.
Qed.




(** C10, as the code has it: whenever [to_directory_entries] returns a
    list, [to_entries] returns the same list; on every payload of the
    expected shape both return, hence the same list. *)
Theorem extractors_agree (payload : json) :
  (∀ es, App.to_directory_entries payload = Ok es →
     Formatter.to_entries payload = Ok es)
  ∧ (payload_ok payload = true →
     ∃ es, Formatter.to_entries payload = Ok es
           ∧ App.to_directory_entries payload = Ok es).
Proof.
  assert (∀ es, App.to_directory_entries payload = Ok es →
            Formatter.to_entries payload = Ok es) as Hagree.
  { intros es.
    destruct (to_entries_first_occurrences payload) as [-> ->].
    destruct (collect_traversal_order payload) as [-> ->].
    intros (l & Hl & ->)%fmap_Ok_inv.
    by rewrite (payload_entries_mono App.add_employee Formatter.add_employee
                  payload l app_add_employee_formatter Hl). }
  split; [exact Hagree|]. intros Hok.
  destruct (extractors_total payload Hok) as (_ & [es Hes]).
  exists es. auto.
Qed.

Lemma extractors_agree_witness :
  Formatter.to_entries (one_department [jane_doe; john_roe; jane_doe])
  = Ok [jane_doe_entry; john_roe_entry]
  ∧ ∃ es,
      Formatter.to_entries (one_department [jane_doe; john_roe; jane_doe])
        = Ok es
      ∧ App.to_directory_entries
          (one_department [jane_doe; john_roe; jane_doe]) = Ok es.
Proof.
  destruct (extractors_agree (one_department [jane_doe; john_roe; jane_doe]))
    as [Hsame Hshape].
  split.
  - apply Hsame. vm_compute. reflexivity.
  - apply Hshape. reflexivity.
Defined.

(** C10, as stated, fails: for an employee with a blank name and a number
    as its office, [to_entries] tests the name first and skips the
    employee, [to_directory_entries] reads the office first and raises. *)
Lemma extractors_differ :
  Formatter.to_entries (one_department [nameless_numeric]) = Ok []
  ∧ App.to_directory_entries (one_department [nameless_numeric])
    = Raise AttributeError.
Proof. split; vm_compute; reflexivity. Qed.

(** ** The renderers *)

Lemma append_entry_lines (lines : list pystr) (e : entry) :
  Formatter.append_entry lines e = lines ++ entry_lines e.
Proof.
  unfold Formatter.append_entry, entry_lines.
  destruct (nonempty (position e)), (nonempty (office_fmt e)),
    (nonempty (email e)); simpl; by rewrite <- ?app_assoc.
Qed.

Lemma fold_append_entry (es : list entry) (lines : list pystr) :
  fold_left Formatter.append_entry es lines = lines ++ (es ≫= entry_lines).
Proof.
  revert lines. induction es as [|e es IH]; intros lines; simpl.
  - by rewrite app_nil_r.
  - by rewrite IH, append_entry_lines, <- app_assoc.
Qed.

(** The text [render_directory] returns: the header line, one empty line
    and the block of every entry in order, joined by newlines; runs of
    three or more newlines collapsed to two; trailing whitespace removed;
    one newline added. *)
Lemma render_directory_lines (es : list entry) :
  Formatter.render_directory es
  = rstrip (re_sub_newlines
              (join [nl] (py "## Employee Phone Number Directory" :: []
                          :: (es ≫= entry_lines))))
    ++ [nl].
Proof. unfold Formatter.render_directory. by rewrite fold_append_entry. Qed.

(** [rstrip] removes a suffix of whitespace and leaves no whitespace at
    the end. *)
Lemma rstrip_suffix (s : pystr) :
  ∃ w, s = rstrip s ++ w ∧ forallb isspace w = true.
Proof.
  induction s as [|c t (w & Ht & Hw)]; simpl; [by exists []|].
  destruct (rstrip t) as [|r0 r] eqn:Hr.
  - destruct (isspace c) eqn:Hc.
    + exists (c :: t). split; [done|]. simpl. rewrite Hc. simpl.
      rewrite Ht. done.
    + exists w. by rewrite Ht at 1.
  - exists w. by rewrite Ht at 1.
Qed.

Lemma rstrip_last (s : pystr) :
  rstrip s = [] ∨ ∃ body c, rstrip s = body ++ [c] ∧ isspace c = false.
Proof.
  induction s as [|c t IH]; simpl; [by left|].
  destruct (rstrip t) as [|r0 r] eqn:Hr.
  - destruct (isspace c) eqn:Hc; [by left|]. right. by exists [], c.
  - right. destruct IH as [|(body & c' & Hbody & Hc')]; [done|].
    exists (c :: body), c'. by rewrite Hbody.
Qed.

Lemma rstrip_app (p q : pystr) :
  rstrip q ≠ [] → rstrip (p ++ q) = p ++ rstrip q.
Proof.
  intros Hq. induction p as [|c p IH]; simpl; [done|].
  rewrite IH. by destruct (p ++ rstrip q) eqn:Hpq;
    [apply app_eq_nil in Hpq as [_ ?]|].
Qed.

Lemma rstrip_nonblank (s : pystr) (c : N) :
  c ∈ s → isspace c = false → rstrip s ≠ [].
Proof.
  intros Hc Hsp Hnil%rstrip_nil_blank.
  rewrite forallb_forall in Hnil.
  apply list_elem_of_In, Hnil in Hc. congruence.
Qed.

(** The collapsed text has no three newlines in a row. *)
Lemma newline_run_cases (run : nat) :
  newline_run run = [] ∨ newline_run run = [nl] ∨ newline_run run = [nl; nl].
Proof.
  unfold newline_run. destruct run as [|[|[|run]]]; simpl; auto.
Qed.

Lemma re_sub_newlines_from_no_triple (s : pystr) (run : nat) (a b : pystr) :
  re_sub_newlines_from run s ≠ a ++ nl :: nl :: nl :: b.
Proof.
  revert run a b. induction s as [|c t IH]; intros run a b; simpl.
  - intros H. apply (f_equal length) in H. rewrite length_app in H.
    destruct (newline_run_cases run) as [E|[E|E]]; rewrite E in H;
      simpl in H; lia.
  - destruct (N.eqb_spec c nl) as [->|Hc]; [apply IH|].
    destruct (newline_run_cases run) as [E|[E|E]]; rewrite E; simpl.
    + destruct a as [|x a]; simpl; intros [= ]; [done|]. by eapply IH.
    + destruct a as [|x [|y a]]; simpl; intros [= ]; try done.
      by eapply IH.
    + destruct a as [|x [|y [|z a]]]; simpl; intros [= ]; try done.
      by eapply IH.
Qed.

(** A character other than a newline survives the collapse, and a text
    without newlines is not changed by it. *)
Lemma re_sub_newlines_from_keeps (s : pystr) (run : nat) (c : N) :
  c ∈ s → c ≠ nl → c ∈ re_sub_newlines_from run s.
Proof.
  revert run. induction s as [|x t IH]; intros run; [by inversion 1|].
  intros Hin Hc. simpl. destruct (N.eqb_spec x nl) as [->|Hx].
  - apply IH; [|done]. by apply elem_of_cons in Hin as [?|?].
  - apply elem_of_app. right. apply elem_of_cons in Hin as [<-|?];
      [left|right; by apply IH].
Qed.

Lemma re_sub_newlines_from_app (p s : pystr) :
  nl ∉ p → p ≠ [] → ∀ run,
  re_sub_newlines_from run (p ++ s)
  = newline_run run ++ p ++ re_sub_newlines_from 0 s.
Proof.
  induction p as [|c p IH]; [done|]. intros Hnl _ run.
  apply not_elem_of_cons in Hnl as [Hc Hp]. simpl.
  destruct (N.eqb_spec c nl) as [|_]; [congruence|]. do 2 f_equal.
  destruct p as [|c' p']; [done|]. by rewrite IH.
Qed.

Lemma join_cons_cons (sep p q : pystr) (rest : list pystr) :
  join sep (p :: q :: rest) = p ++ sep ++ join sep (q :: rest).
Proof. reflexivity. Qed.

Lemma header_no_newline : nl ∉ py "## Employee Phone Number Directory".
Proof. apply (bool_decide_unpack _). vm_compute. exact I. Qed.

Lemma indent_no_newline : nl ∉ py "    ".
Proof. apply (bool_decide_unpack _). vm_compute. exact I. Qed.

(** A collapsed and trimmed text that is not empty, followed by a newline,
    ends with one newline that follows a character other than whitespace,
    and has no three newlines in a row. *)
Lemma trimmed_text_ending (text : pystr) :
  rstrip (re_sub_newlines text) ≠ [] →
  (∃ body c, rstrip (re_sub_newlines text) ++ [nl] = body ++ [c; nl]
             ∧ isspace c = false)
  ∧ ∀ a b, rstrip (re_sub_newlines text) ++ [nl] ≠ a ++ nl :: nl :: nl :: b.
Proof.
  intros Hne.
  destruct (rstrip_last (re_sub_newlines text))
    as [|(body & c & Hbody & Hc)]; [done|].
  split.
  - exists body, c. by rewrite Hbody, <- app_assoc.
  - intros a b Heq. destruct b as [|x b _] using rev_ind.
    + change (a ++ [nl; nl; nl]) with (a ++ [nl; nl] ++ [nl]) in Heq.
      rewrite app_assoc in Heq. apply app_inj_tail in Heq as [Heq _].
      rewrite Hbody in Heq.
      change (a ++ [nl; nl]) with (a ++ [nl] ++ [nl]) in Heq.
      rewrite app_assoc in Heq. apply app_inj_tail in Heq as [_ ->].
      done.
    + change (a ++ nl :: nl :: nl :: b ++ [x])
        with (a ++ (nl :: nl :: nl :: b) ++ [x]) in Heq.
      rewrite app_assoc in Heq. apply app_inj_tail in Heq as [Heq _].
      destruct (rstrip_suffix (re_sub_newlines text)) as (w & Hw & _).
      rewrite Heq, <- app_assoc in Hw.
      by apply re_sub_newlines_from_no_triple in Hw.
Qed.

(** The text of [render_directory] ends with one newline that follows a
    character other than whitespace, and has no three newlines in a
    row. *)
Lemma render_directory_ending (es : list entry) :
  (∃ body c, Formatter.render_directory es = body ++ [c; nl]
             ∧ isspace c = false)
  ∧ ∀ a b, Formatter.render_directory es ≠ a ++ nl :: nl :: nl :: b.
Proof.
  rewrite render_directory_lines. apply trimmed_text_ending.
  apply (rstrip_nonblank _ 35); [|done].
  apply re_sub_newlines_from_keeps; [|done].
  rewrite join_cons_cons. apply elem_of_app. left.
  apply (bool_decide_unpack _). vm_compute. exact I.
Qed.

Lemma join_head (sep p : pystr) (rest : list pystr) :
  ∃ tail, join sep (p :: rest) = p ++ tail.
Proof.
  destruct rest as [|q rest]; [exists []; by rewrite app_nil_r|].
  by exists (sep ++ join sep (q :: rest)).
Qed.

(** When the name of the first entry is not blank, the text begins with
    the header line, one empty line, and the four spaces that indent the
    name. *)
Lemma render_directory_header (e : entry) (es : list entry) :
  forallb isspace (name e) = false →
  ∃ rest,
    Formatter.render_directory (e :: es)
    = py "## Employee Phone Number Directory" ++ [nl; nl] ++ py "    "
      ++ rest.
Proof.
  intros Hname. rewrite render_directory_lines.
  assert (∃ c, c ∈ name e ∧ isspace c = false) as (c & Hc & Hsp).
  { induction (name e) as [|x n IH]; simpl in Hname; [done|].
    destruct (isspace x) eqn:Hx.
    - destruct (IH Hname) as (c & ? & ?). exists c. split; [by right|done].
    - exists x. split; [left|done]. }
  rewrite bind_cons. unfold entry_lines at 1.
  change ([py "    " ++ name e] ++ ?more) with ((py "    " ++ name e) :: more).
  rewrite <- app_comm_cons, !join_cons_cons.
  destruct (join_head [nl] (py "    " ++ name e)
              (((if nonempty (position e) then [position e] else []) ++
                (if nonempty (office_fmt e)
                 then [py "Office: " ++ office_fmt e] else []) ++
                (if nonempty (email e)
                 then [py "Email: " ++ email e] else []) ++ [[]])
               ++ es ≫= entry_lines)) as [tail ->].
  unfold re_sub_newlines.
  rewrite (re_sub_newlines_from_app _ _ header_no_newline) by done.
  change (re_sub_newlines_from 0 ([nl] ++ [] ++ [nl] ++ ?s))
    with (re_sub_newlines_from 2 s).
  rewrite <- (app_assoc (py "    ")).
  rewrite (re_sub_newlines_from_app _ _ indent_no_newline) by done.
  change (newline_run 0) with (@nil N). change (newline_run 2) with [nl; nl].
  rewrite app_nil_l, !app_assoc, rstrip_app.
  - eexists. rewrite <- !app_assoc. reflexivity.
  - apply (rstrip_nonblank _ c); [|done].
    apply re_sub_newlines_from_keeps; [|by intros ->].
    apply elem_of_app. by left.
Qed.

(** C1: for an entry without a position, the renderer of [app.py] still
    appends the (empty) position line, so an empty line separates the name
    from the office line; the renderer of [Employee_List_Formatter.py]
    appends no line for an empty position. *)
Theorem app_render_blank_position_line :
  App.to_directory_entries (one_department [john_roe]) = Ok [john_roe_entry]
  ∧ App.render_directory_markdown [john_roe_entry]
    = py "## Employee Phone Number Directory" ++ [nl; nl]
      ++ py "    John Roe" ++ [nl; nl]
      ++ py "Office: (555) 123-4567" ++ [nl]
  ∧ Formatter.render_directory [john_roe_entry]
    = py "## Employee Phone Number Directory" ++ [nl; nl]
      ++ py "    John Roe" ++ [nl]
      ++ py "Office: (555) 123-4567" ++ [nl].
Proof. repeat split; vm_compute; reflexivity. Qed.

(** ** The button handler *)

Section handler_properties.
Variable json_loads : pystr → loaded.
Variable json_dumps : json → pystr.
Variables (raw : pystr) (pretty show_table : bool).

Local Notation shown_first := (pretty_shown json_dumps pretty).

Lemma outcome_of_pretty_shown payload rest :
  outcome_of (shown_first payload ++ rest) = outcome_of rest.
Proof. unfold pretty_shown. by destruct pretty. Qed.

End handler_properties.



(** * Further properties *)

(** ** Digits and the phone formatter *)

Lemma isspace_not_decimal (c : N) : isspace c = true → isdecimal c = false.
Proof.
  unfold isspace. rewrite existsb_exists.
  intros (x & Hx & ->%N.eqb_eq). unfold whitespace in Hx.
  repeat (destruct Hx as [<-|Hx]; [reflexivity|]). destruct Hx.
Qed.

Lemma re_sub_nondigits_app (a b : pystr) :
  re_sub_nondigits (a ++ b) = re_sub_nondigits a ++ re_sub_nondigits b.
Proof. apply filter_app. Qed.

Lemma re_sub_nondigits_all (s : pystr) :
  forallb isdecimal (re_sub_nondigits s) = true.
Proof.
  unfold re_sub_nondigits. induction s as [|c s IH]; [done|].
  rewrite filter_cons. case_decide as Hc; [|done].
  simpl. by rewrite Hc.
Qed.

Lemma re_sub_nondigits_blank (w : pystr) :
  forallb isspace w = true → re_sub_nondigits w = [].
Proof.
  unfold re_sub_nondigits. induction w as [|c w IH]; [done|].
  simpl forallb. intros [Hc Hw]%andb_prop.
  rewrite filter_cons, decide_False; [by apply IH|].
  by rewrite (isspace_not_decimal c Hc).
Qed.

Lemma lstrip_prefix (s : pystr) :
  ∃ w, s = w ++ lstrip s ∧ forallb isspace w = true.
Proof.
  induction s as [|c t (w & Ht & Hw)]; simpl; [by exists []|].
  destruct (isspace c) eqn:Hc; [|by exists []].
  exists (c :: w). simpl. rewrite Hc, <- Ht. done.
Qed.

(** Trimming removes no digit. *)
Lemma re_sub_nondigits_strip (s : pystr) :
  re_sub_nondigits (strip s) = re_sub_nondigits s.
Proof.
  unfold strip.
  destruct (lstrip_prefix s) as (w1 & Hs & Hw1).
  destruct (rstrip_suffix (lstrip s)) as (w2 & Hl & Hw2).
  rewrite Hs at 2. rewrite Hl at 2.
  rewrite !re_sub_nondigits_app, (re_sub_nondigits_blank w1),
    (re_sub_nondigits_blank w2) by done.
  by rewrite app_nil_r.
Qed.


Lemma slice_sublist (i j : nat) (s : pystr) : slice i j s `sublist_of` s.
Proof. unfold slice. etrans; [apply sublist_drop|apply sublist_take]. Qed.

Lemma digits_of_us_layout (d : pystr) :
  length d = 10%nat → forallb isdecimal d = true →
  re_sub_nondigits (us_layout d) = d.
Proof.
  intros Hlen Hd. unfold us_layout.
  assert (∀ k, k `sublist_of` d → re_sub_nondigits k = k) as Hsub.
  { intros k Hk. apply re_sub_nondigits_digits.
    rewrite forallb_forall in Hd |- *. intros x Hx%list_elem_of_In.
    apply Hd, list_elem_of_In. by eapply elem_of_sublist. }
  rewrite !re_sub_nondigits_app.
  rewrite (Hsub (slice 0 3 d)), (Hsub (slice 3 6 d)), (Hsub (slice 6 10 d))
    by apply slice_sublist.
  unfold slice.
  change (re_sub_nondigits (py "(")) with (@nil N).
  change (re_sub_nondigits (py ") ")) with (@nil N).
  change (re_sub_nondigits (py "-")) with (@nil N).
  simpl app. rewrite drop_0.
  rewrite (take_ge d 10) by lia.
  rewrite drop_take_drop by lia. apply take_drop.
Qed.

(** X2: whatever else the raw text holds, when its digits are ten digits
    [d], or a [1] followed by ten digits [d], both formatters return
    ["(" d[0:3] ") " d[3:6] "-" d[6:10]]. *)
Theorem format_us_phone_any_separators (raw d : pystr) :
  length d = 10%nat →
  Formatter.digits_only raw = d ∨ Formatter.digits_only raw = 49 :: d →
  Formatter.format_us_phone raw
    = py "(" ++ slice 0 3 d ++ py ") " ++ slice 3 6 d ++ py "-" ++ slice 6 10 d
  ∧ App.format_us_phone raw
    = py "(" ++ slice 0 3 d ++ py ") " ++ slice 3 6 d ++ py "-" ++ slice 6 10 d.
Proof.
  intros Hlen Hd. unfold Formatter.format_us_phone, App.format_us_phone.
  change (App.digits_only raw) with (Formatter.digits_only raw).
  destruct Hd as [-> | ->].
  - by rewrite Hlen.
  - simpl length. rewrite Hlen. done.
Qed.

Lemma format_us_phone_any_separators_witness :
  Formatter.format_us_phone (py "+1 (555) 123.4567") = py "(555) 123-4567"
  ∧ App.format_us_phone (py "+1 (555) 123.4567") = py "(555) 123-4567".
Proof.
  apply (format_us_phone_any_separators (py "+1 (555) 123.4567")
           (py "5551234567")); [reflexivity|].
  right. reflexivity.
Defined.

(** X3: formatting a formatted number changes nothing, in either script:
    the layout keeps the ten digits, and the fallback keeps the text. *)
Theorem format_us_phone_idempotent (raw : pystr) :
  Formatter.format_us_phone (Formatter.format_us_phone raw)
    = Formatter.format_us_phone raw
  ∧ App.format_us_phone (App.format_us_phone raw) = App.format_us_phone raw.
Proof.
  assert (∀ d, length d = 10%nat → forallb isdecimal d = true →
            Formatter.format_us_phone (us_layout d) = us_layout d
            ∧ App.format_us_phone (us_layout d) = us_layout d) as Hlayout.
  { intros d Hlen Hd.
    unfold Formatter.format_us_phone, App.format_us_phone,
      App.digits_only, Formatter.digits_only.
    rewrite or_empty_id, digits_of_us_layout, Hlen by done. done. }
  assert (forallb isdecimal (Formatter.digits_only raw) = true) as Hdig.
  { unfold Formatter.digits_only. apply re_sub_nondigits_all. }
  unfold Formatter.format_us_phone at 2 3, App.format_us_phone at 2 3.
  change (App.digits_only raw) with (Formatter.digits_only raw).
  destruct (Nat.eqb_spec (length (Formatter.digits_only raw)) 10)
    as [Hlen|Hlen]; [by apply Hlayout|].
  destruct (Nat.eqb_spec (length (Formatter.digits_only raw)) 11)
    as [Hlen'|Hlen']; simpl andb.
  - destruct (startswith _ _) eqn:Hstart.
    + apply Hlayout.
      * rewrite length_drop. lia.
      * destruct (Formatter.digits_only raw) as [|c t]; [done|].
        simpl in Hdig. by apply andb_prop in Hdig as [_ ?].
    + unfold Formatter.format_us_phone, App.format_us_phone,
        App.digits_only, Formatter.digits_only in *.
      rewrite !or_empty_id in *. rewrite re_sub_nondigits_strip.
      rewrite Hlen', Hstart. simpl. by rewrite strip_idemp.
  - unfold Formatter.format_us_phone, App.format_us_phone,
      App.digits_only, Formatter.digits_only in *.
    rewrite !or_empty_id in *. rewrite re_sub_nondigits_strip.
    destruct (Nat.eqb_spec (length (re_sub_nondigits raw)) 10); [done|].
    destruct (Nat.eqb_spec (length (re_sub_nondigits raw)) 11); [done|].
    simpl. by rewrite strip_idemp.
Qed.

(** ** More on the extractors *)

Lemma for_each_app {A S : Type} (body : S → A → result S)
    (xs ys : list A) (s : S) :
  for_each body (xs ++ ys) s = for_each body xs s ≫= for_each body ys.
Proof.
  revert s. induction xs as [|x xs IH]; intros s; simpl; [done|].
  destruct (body s x); simpl; [apply IH|done].
Qed.

(** On a payload made of departments that each list their employees, the
    two loops run the inner body over all the employees in a row. *)
Lemma walk_departments (f : list entry → json → result (list entry))
    (groups : list (list json)) :
  walk_payload f (departments (department <$> groups))
  = for_each f (concat groups) [].
Proof.
  assert (∀ g acc, walk_block f acc (department g) = for_each f g acc)
    as Hblock.
  { intros g acc. by destruct g. }
  assert (∀ l acc, for_each (walk_block f) (department <$> l) acc
                   = for_each f (concat l) acc) as Hall.
  { induction l as [|g gs IH]; intros acc; [done|].
    rewrite fmap_cons. simpl for_each. simpl concat.
    rewrite Hblock, for_each_app.
    destruct (for_each f g acc); simpl; [apply IH|done]. }
  unfold walk_payload, departments. simpl py_get. simpl mbind.
  destruct groups as [|g gs]; [done|].
  rewrite py_or_true by done. apply Hall.
Qed.

Lemma walk_one_department (f : list entry → json → result (list entry))
    (emps : list json) :
  walk_payload f (one_department emps) = for_each f emps [].
Proof.
  change (one_department emps) with (departments (department <$> [emps])).
  rewrite walk_departments. simpl. by rewrite app_nil_r.
Qed.

(** X4: how the employees are grouped into departments does not matter:
    a payload whose departments list the groups of employees [groups]
    gives the same entries as one department listing all of them in
    order. *)
Theorem departments_flatten (groups : list (list json)) :
  Formatter.to_entries (departments (department <$> groups))
    = Formatter.to_entries (one_department (concat groups))
  ∧ App.to_directory_entries (departments (department <$> groups))
    = App.to_directory_entries (one_department (concat groups)).
Proof.
  unfold Formatter.to_entries, App.to_directory_entries.
  rewrite (formatter_collect_walk (departments _)),
    (formatter_collect_walk (one_department _)),
    (app_collect_walk (departments _)), (app_collect_walk (one_department _)).
  by rewrite !walk_one_department, !walk_departments.
Qed.

Lemma read_field_JStr (d : dict) (k s : pystr) :
  dict_get d k (JStr []) = JStr s → read_field d k = Ok (strip s).
Proof. unfold read_field. intros ->. by destruct s. Qed.

(** X5: for an employee object whose four fields are the strings [n],
    [p], [o] and [m], both extractors add nothing when [n] is blank, and
    otherwise add the entry made of the trimmed strings, with the office
    formatted from the trimmed [o]. *)
Theorem add_employee_of_strings (acc : list entry) (n p o m : pystr) :
  Formatter.add_employee acc (employee n p o m)
    = Ok (if nonempty (strip n)
          then acc ++ [Entry (strip n) (strip p) (strip o)
                             (Formatter.format_us_phone (strip o)) (strip m)]
          else acc)
  ∧ App.add_employee acc (employee n p o m)
    = Ok (if nonempty (strip n)
          then acc ++ [Entry (strip n) (strip p) (strip o)
                             (App.format_us_phone (strip o)) (strip m)]
          else acc)
  ∧ App.format_us_phone (strip o) = Formatter.format_us_phone (strip o).
Proof.
  unfold employee.
  rewrite formatter_add_employee_dict, app_add_employee_dict.
  rewrite (read_field_JStr _ (py "contact_name") n) by reflexivity.
  rewrite (read_field_JStr _ (py "employee_position") p) by reflexivity.
  rewrite (read_field_JStr _ (py "office_number") o) by reflexivity.
  rewrite (read_field_JStr _ (py "email_address") m) by reflexivity.
  simpl mbind. repeat split; try by destruct (nonempty (strip n)).
  symmetry. apply format_us_phone_agree, strip_idemp.
Qed.

Lemma add_employee_well_formed (emp : json) (new : list entry) :
  Formatter.add_employee [] emp = Ok new → Forall well_formed new.
Proof.
  destruct emp as [| | | | | |d]; try done.
  rewrite formatter_add_employee_dict.
  destruct (read_field d (py "contact_name")) as [n|] eqn:Hn; [|done].
  simpl. destruct n as [|c n]; simpl; [intros [= <-]; constructor|].
  destruct (read_field d (py "employee_position")) as [p|] eqn:Hp;
    simpl; [|done].
  destruct (read_field d (py "office_number")) as [o|] eqn:Ho;
    simpl; [|done].
  destruct (read_field d (py "email_address")) as [m|] eqn:Hm;
    simpl; [|done].
  intros [= <-]. repeat constructor; simpl;
    try done; by eapply read_field_trimmed.
Qed.

Lemma app_entries_formatter (payload : json) (es : list entry) :
  App.to_directory_entries payload = Ok es →
  Formatter.to_entries payload = Ok es.
Proof.
  destruct (to_entries_first_occurrences payload) as [-> ->].
  destruct (collect_traversal_order payload) as [-> ->].
  intros (l & Hl & ->)%fmap_Ok_inv.
  by rewrite (payload_entries_mono App.add_employee Formatter.add_employee
                payload l app_add_employee_formatter Hl).
Qed.

Lemma to_entries_well_formed (payload : json) (es : list entry) :
  Formatter.to_entries payload = Ok es → Forall well_formed es.
Proof.
  destruct (to_entries_first_occurrences payload) as [-> _].
  intros (l & Hl & ->)%fmap_Ok_inv.
  eapply Forall_in_sublist; [|apply first_occurrences_sublist].
  eapply (walk_payload_Forall _ formatter_add_employee_appends);
    [|exact Hl].
  apply add_employee_well_formed.
Qed.

(** X6: every entry either extractor returns has a name that is not
    empty, has its four fields trimmed and its office formatted from its
    raw office; and the returned list holds no entry twice. *)
Theorem extracted_entries_well_formed (payload : json) (es : list entry) :
  Formatter.to_entries payload = Ok es
  ∨ App.to_directory_entries payload = Ok es →
  Forall well_formed es ∧ NoDup es.
Proof.
  intros H.
  assert (Formatter.to_entries payload = Ok es) as Hes
    by (destruct H; auto using app_entries_formatter).
  clear H. split; [by eapply to_entries_well_formed|]. revert Hes.
  destruct (to_entries_first_occurrences payload) as [-> _].
  intros (l & Hl & ->)%fmap_Ok_inv.
  eapply NoDup_fmap_1, first_occurrences_NoDup.
Qed.

Lemma extracted_entries_well_formed_witness :
  Forall well_formed [jane_doe_entry; john_roe_entry]
  ∧ NoDup [jane_doe_entry; john_roe_entry].
Proof.
  apply (extracted_entries_well_formed
           (one_department [jane_doe; john_roe; jane_doe])).
  left. vm_compute. reflexivity.
Defined.

(** X7: when every employee is an object with a blank name, [to_entries]
    returns the empty list, whatever the other fields hold; so does
    [to_directory_entries] when the other fields are strings, false or
    absent. *)
Theorem all_blank_names_no_entries (emps : list json) :
  Forall (λ emp, ∃ d, emp = JObj d
                      ∧ blank (dict_get d (py "contact_name") (JStr [])) = true)
         emps →
  Formatter.to_entries (one_department emps) = Ok []
  ∧ (Forall (λ emp, employee_ok emp = true) emps →
     App.to_directory_entries (one_department emps) = Ok []).
Proof.
  intros Hblank. unfold Formatter.to_entries, App.to_directory_entries.
  rewrite formatter_collect_walk, app_collect_walk, !walk_one_department.
  split.
  - enough (for_each Formatter.add_employee emps [] = Ok []) as -> by done.
    induction Hblank as [|emp emps (d & -> & Hd) _ IH]; simpl; [done|].
    rewrite formatter_add_employee_dict, (read_field_blank _ _ Hd). done.
  - intros Hok.
    enough (for_each App.add_employee emps [] = Ok []) as -> by done.
    induction Hblank as [|emp emps (d & -> & Hd) _ IH]; simpl; [done|].
    apply Forall_cons in Hok as [Hemp Hok].
    destruct (app_add_employee_total _ Hemp) as [new Hnew].
    rewrite Hnew. simpl. revert Hnew. rewrite app_add_employee_dict.
    rewrite (read_field_blank _ _ Hd). simpl.
    destruct (read_field d (py "employee_position")); simpl; [|done].
    destruct (read_field d (py "office_number")); simpl; [|done].
    destruct (read_field d (py "email_address")); simpl; [|done].
    intros [= <-]. by apply IH.
Qed.

Lemma all_blank_names_no_entries_witness :
  Formatter.to_entries
    (one_department [nameless_numeric; JObj [(py "contact_name", JNull)]])
  = Ok [].
Proof.
  apply (all_blank_names_no_entries
           [nameless_numeric; JObj [(py "contact_name", JNull)]]).
  repeat constructor; eexists; (split; [reflexivity|reflexivity]).
Defined.

Lemma for_each_employee_ok_returns
    (f : list entry → json → result (list entry)) (emps : list json) :
  (∀ acc emp, f acc emp = (acc ++.) <$> f [] emp) →
  (∀ emp, employee_ok emp = true → ∃ new, f [] emp = Ok new) →
  Forall (λ emp, employee_ok emp = true) emps →
  ∀ acc, ∃ acc', for_each f emps acc = Ok acc'.
Proof.
  intros Happ Htotal. induction 1 as [|emp emps Hemp _ IH]; intros acc.
  - by eexists.
  - simpl. rewrite Happ. destruct (Htotal emp Hemp) as [new ->]. simpl.
    apply IH.
Qed.

(** X8: one employee on which the inner body raises loses the whole
    directory: when the employees before it have the expected shape, the
    extractor raises, and the exception is an [AttributeError]. *)
Theorem bad_employee_raises (before after : list json) (emp : json)
    (e : pyerr) :
  Forall (λ x, employee_ok x = true) before →
  (Formatter.add_employee [] emp = Raise e →
   e = AttributeError
   ∧ Formatter.to_entries (one_department (before ++ emp :: after))
     = Raise AttributeError)
  ∧ (App.add_employee [] emp = Raise e →
     e = AttributeError
     ∧ App.to_directory_entries (one_department (before ++ emp :: after))
       = Raise AttributeError).
Proof.
  intros Hbefore.
  assert (∀ d k, read_field d k = Raise e → e = AttributeError) as Hfield.
  { intros d k. unfold read_field. by destruct (py_or _ _); intros [= <-]. }
  split; intros Hemp.
  - assert (e = AttributeError) as ->.
    { destruct emp as [| | | | | |d]; try by injection Hemp as <-.
      rewrite formatter_add_employee_dict in Hemp.
      destruct (read_field d (py "contact_name")) as [n|] eqn:Hn;
        simpl in Hemp; [|injection Hemp as <-; by eapply Hfield].
      destruct (nonempty n); [|done].
      destruct (read_field d (py "employee_position")) eqn:Hp;
        simpl in Hemp; [|injection Hemp as <-; by eapply Hfield].
      destruct (read_field d (py "office_number")) eqn:Ho;
        simpl in Hemp; [|injection Hemp as <-; by eapply Hfield].
      destruct (read_field d (py "email_address")) eqn:Hm;
        simpl in Hemp; [done|injection Hemp as <-; by eapply Hfield]. }
    split; [done|]. unfold Formatter.to_entries.
    rewrite formatter_collect_walk, walk_one_department, for_each_app.
    destruct (for_each_employee_ok_returns Formatter.add_employee before
                formatter_add_employee_appends formatter_add_employee_total
                Hbefore []) as [acc ->].
    simpl. by rewrite formatter_add_employee_appends, Hemp.
  - assert (e = AttributeError) as ->.
    { destruct emp as [| | | | | |d]; try by injection Hemp as <-.
      rewrite app_add_employee_dict in Hemp.
      destruct (read_field d (py "contact_name")) as [n|] eqn:Hn;
        simpl in Hemp; [|injection Hemp as <-; by eapply Hfield].
      destruct (read_field d (py "employee_position")) eqn:Hp;
        simpl in Hemp; [|injection Hemp as <-; by eapply Hfield].
      destruct (read_field d (py "office_number")) eqn:Ho;
        simpl in Hemp; [|injection Hemp as <-; by eapply Hfield].
      destruct (read_field d (py "email_address")) eqn:Hm;
        simpl in Hemp; [|injection Hemp as <-; by eapply Hfield].
      by destruct (nonempty n). }
    split; [done|]. unfold App.to_directory_entries.
    rewrite app_collect_walk, walk_one_department, for_each_app.
    destruct (for_each_employee_ok_returns App.add_employee before
                app_add_employee_appends app_add_employee_total
                Hbefore []) as [acc ->].
    simpl. by rewrite app_add_employee_appends, Hemp.
Qed.

Lemma bad_employee_raises_witness :
  Formatter.to_entries
    (one_department
       [jane_doe;
        JObj [(py "contact_name", JStr (py "Max Poe"));
              (py "office_number", JInt 5551234567)];
        john_roe])
  = Raise AttributeError.
Proof.
  apply (proj1 (bad_employee_raises [jane_doe] [john_roe]
                  (JObj [(py "contact_name", JStr (py "Max Poe"));
                         (py "office_number", JInt 5551234567)])
                  AttributeError ltac:(repeat constructor))).
  reflexivity.
Defined.

(** ** More on deduplication *)

Lemma filter_none {A} (P : A → Prop) `{!∀ x, Decision (P x)} (l : list A) :
  (∀ x, x ∈ l → ¬ P x) → filter P l = [].
Proof.
  induction l as [|x l IH]; intros Hall; [done|].
  rewrite filter_cons, decide_False by (apply Hall; left).
  apply IH. intros y Hy. apply Hall. by right.
Qed.

Lemma first_occurrences_app (a b : list entry) :
  first_occurrences (a ++ b)
  = first_occurrences a
    ++ filter (λ x, entry_key x ∉ entry_key <$> a) (first_occurrences b).
Proof.
  induction a as [|e a IH]; simpl.
  - symmetry. apply filter_all. intros x _. by inversion 1.
  - rewrite IH, filter_app, list_filter_filter. do 3 f_equal.
    apply list_filter_iff. intros x. rewrite not_elem_of_cons. tauto.
Qed.

Lemma first_occurrences_absorbs (a b : list entry) :
  (∀ x, x ∈ b → entry_key x ∈ entry_key <$> a) →
  first_occurrences (a ++ b) = first_occurrences a.
Proof.
  intros Hb. rewrite first_occurrences_app.
  rewrite <- (app_nil_r (first_occurrences a)) at 2. f_equal.
  apply filter_none. intros x Hx Hnot. apply Hnot, Hb.
  eapply elem_of_sublist; [exact Hx|apply first_occurrences_sublist].
Qed.

(** X9: deduplicating two lists in a row keeps the first list's entries
    and then those of the second whose key the first does not hold; so a
    list repeated after itself, or after a list holding all its keys,
    adds nothing. *)
Theorem dedupe_app (a b : list entry) :
  dedupe (a ++ b)
    = dedupe a ++ filter (λ x, entry_key x ∉ entry_key <$> a) (dedupe b)
  ∧ ((∀ x, x ∈ b → entry_key x ∈ entry_key <$> a) →
     dedupe (a ++ b) = dedupe a)
  ∧ dedupe (a ++ a) = dedupe a.
Proof.
  rewrite !dedupe_first_occurrences.
  split; [apply first_occurrences_app|].
  split; [apply first_occurrences_absorbs|].
  apply first_occurrences_absorbs. intros x Hx. by apply list_elem_of_fmap_2.
Qed.

Lemma dedupe_app_witness :
  dedupe ([jane_doe_entry; john_roe_entry] ++ [john_roe_entry])
  = dedupe [jane_doe_entry; john_roe_entry].
Proof.
  apply (proj1 (proj2 (dedupe_app [jane_doe_entry; john_roe_entry]
                         [john_roe_entry]))).
  intros x ->%list_elem_of_singleton. right. left.
Defined.

(** X10: deduplication changes a list exactly when two of its entries
    have the same key, and never makes it longer. *)
Theorem dedupe_fixed_iff (es : list entry) :
  (dedupe es = es ↔ NoDup (entry_key <$> es))
  ∧ (length (dedupe es) ≤ length es)%nat.
Proof.
  rewrite dedupe_first_occurrences. split; [split|].
  - intros Heq. rewrite <- Heq. apply first_occurrences_NoDup.
  - apply first_occurrences_fixed.
  - apply sublist_length, first_occurrences_sublist.
Qed.

(** ** More on the renderers *)

Lemma app_append_entry_lines (lines : list pystr) (e : entry) :
  App.append_entry lines e = lines ++ app_entry_lines e.
Proof.
  unfold App.append_entry, app_entry_lines.
  destruct (nonempty (office_fmt e)), (nonempty (email e)); simpl;
    by rewrite <- ?app_assoc.
Qed.

Lemma fold_app_append_entry (es : list entry) (lines : list pystr) :
  fold_left App.append_entry es lines = lines ++ (es ≫= app_entry_lines).
Proof.
  revert lines. induction es as [|e es IH]; intros lines; simpl.
  - by rewrite app_nil_r.
  - by rewrite IH, app_append_entry_lines, <- app_assoc.
Qed.

(** The text [render_directory_markdown] returns, from the lines of its
    entries. *)
Lemma render_directory_markdown_lines (es : list entry) :
  App.render_directory_markdown es
  = rstrip (re_sub_newlines
              (join [nl] (py "## Employee Phone Number Directory" :: []
                          :: (es ≫= app_entry_lines))))
    ++ [nl].
Proof.
  unfold App.render_directory_markdown. rewrite fold_app_append_entry.
  generalize (py "## Employee Phone Number Directory") as header.
  intros header. do 3 f_equal. simpl app.
  destruct (es ≫= app_entry_lines) as [|l ls].
  - done.
  - rewrite !join_cons_cons. by rewrite <- !app_assoc.
Qed.


Lemma header_in_text (rest : list pystr) :
  rstrip (re_sub_newlines
            (join [nl] (py "## Employee Phone Number Directory" :: rest)))
  ≠ [].
Proof.
  apply (rstrip_nonblank _ 35); [|done].
  apply re_sub_newlines_from_keeps; [|done].
  destruct (join_head [nl] (py "## Employee Phone Number Directory") rest)
    as [tail ->].
  apply elem_of_app. left. apply (bool_decide_unpack _). vm_compute. exact I.
Qed.

(** X12: with either renderer and whatever the entries hold, the text ends
    with one newline that follows a character other than whitespace, and
    has no three newlines in a row. *)
Theorem rendered_text_ending (es : list entry) :
  ((∃ body c, Formatter.render_directory es = body ++ [c; nl]
              ∧ isspace c = false)
   ∧ ∀ a b, Formatter.render_directory es ≠ a ++ nl :: nl :: nl :: b)
  ∧ ((∃ body c, App.render_directory_markdown es = body ++ [c; nl]
                ∧ isspace c = false)
     ∧ ∀ a b, App.render_directory_markdown es ≠ a ++ nl :: nl :: nl :: b).
Proof.
  rewrite render_directory_lines, render_directory_markdown_lines.
  split; apply trimmed_text_ending, header_in_text.
Qed.

Lemma header_then_name (n : pystr) (more : list pystr) :
  forallb isspace n = false →
  ∃ rest,
    rstrip (re_sub_newlines
              (join [nl] (py "## Employee Phone Number Directory" :: []
                          :: (py "    " ++ n) :: more)))
    ++ [nl]
    = py "## Employee Phone Number Directory" ++ [nl; nl] ++ py "    "
      ++ rest.
Proof.
  intros Hname.
  assert (∃ c, c ∈ n ∧ isspace c = false) as (c & Hc & Hsp).
  { induction n as [|x n IH]; simpl in Hname; [done|].
    destruct (isspace x) eqn:Hx.
    - destruct (IH Hname) as (c & ? & ?). exists c. split; [by right|done].
    - exists x. split; [left|done]. }
  rewrite !join_cons_cons.
  destruct (join_head [nl] (py "    " ++ n) more) as [tail ->].
  unfold re_sub_newlines.
  rewrite (re_sub_newlines_from_app _ _ header_no_newline) by done.
  change (re_sub_newlines_from 0 ([nl] ++ [] ++ [nl] ++ ?s))
    with (re_sub_newlines_from 2 s).
  rewrite <- (app_assoc (py "    ")).
  rewrite (re_sub_newlines_from_app _ _ indent_no_newline) by done.
  change (newline_run 0) with (@nil N). change (newline_run 2) with [nl; nl].
  rewrite app_nil_l, !app_assoc, rstrip_app.
  - eexists. rewrite <- !app_assoc. reflexivity.
  - apply (rstrip_nonblank _ c); [|done].
    apply re_sub_newlines_from_keeps; [|by intros ->].
    apply elem_of_app. by left.
Qed.

(** X13: when the name of the first entry is not blank, the text of
    either renderer begins with the header line, one empty line, and the
    four spaces that indent the first name. *)
Theorem rendered_text_header (e : entry) (es : list entry) :
  forallb isspace (name e) = false →
  (∃ rest,
     Formatter.render_directory (e :: es)
     = py "## Employee Phone Number Directory" ++ [nl; nl] ++ py "    "
       ++ rest)
  ∧ (∃ rest,
       App.render_directory_markdown (e :: es)
       = py "## Employee Phone Number Directory" ++ [nl; nl] ++ py "    "
         ++ rest).
Proof.
  intros Hname.
  rewrite render_directory_lines, render_directory_markdown_lines.
  rewrite !bind_cons. unfold entry_lines at 1, app_entry_lines at 1.
  split.
  - change ([py "    " ++ name e] ++ ?more) with ((py "    " ++ name e) :: more).
    rewrite <- app_comm_cons. by apply header_then_name.
  - change ([py "    " ++ name e] ++ ?more) with ((py "    " ++ name e) :: more).
    rewrite <- app_comm_cons. by apply header_then_name.
Qed.

Lemma rendered_text_header_witness :
  ∃ rest,
    Formatter.render_directory [john_roe_entry]
    = py "## Employee Phone Number Directory" ++ [nl; nl] ++ py "    "
      ++ rest.
Proof.
  apply (rendered_text_header john_roe_entry []). reflexivity.
Defined.

(** X14: on entries that all have a position, the two renderers return
    the same text. *)
Theorem renderers_agree_with_positions (es : list entry) :
  Forall (λ e, position e ≠ []) es →
  App.render_directory_markdown es = Formatter.render_directory es.
Proof.
  intros Hpos. rewrite render_directory_lines, render_directory_markdown_lines.
  enough (es ≫= app_entry_lines = es ≫= entry_lines) as -> by done.
  induction Hpos as [|e es He _ IH]; [done|].
  rewrite !bind_cons, IH. f_equal.
  unfold app_entry_lines, entry_lines.
  destruct (position e); [done|]. done.
Qed.

Lemma renderers_agree_with_positions_witness :
  App.render_directory_markdown [jane_doe_entry]
  = Formatter.render_directory [jane_doe_entry].
Proof.
  apply (renderers_agree_with_positions [jane_doe_entry]).
  repeat constructor. discriminate.
Defined.

(** ** More on the button handler *)

Section handler_table.
Variable json_loads : pystr → loaded.

(** What the user is shown and how the run ends, read off the result of
    [json.loads] and of the extractor alone. *)
Lemma formatter_on_generate_table json_dumps raw pretty show_table :
  outcome_of
    (Formatter.on_generate json_loads json_dumps raw pretty show_table).1
  = match json_loads raw with
    | JSONDecodeError msg => Malformed (py "Invalid JSON: " ++ msg)
    | Parsed payload =>
        match Formatter.to_entries payload with
        | Raise _ => NothingShown
        | Ok [] => NoData
        | Ok es => Rendered (Formatter.render_directory es)
        end
    end
  ∧ (Formatter.on_generate json_loads json_dumps raw pretty show_table).2
    = match json_loads raw with
      | JSONDecodeError msg => Stopped
      | Parsed payload =>
          match Formatter.to_entries payload with
          | Raise e => Uncaught e
          | Ok [] => Stopped
          | Ok es =>
              match encode_utf8 (Formatter.render_directory es) with
              | Ok _ => Completed
              | Raise e => Uncaught e
              end
          end
      end.
Proof.
  unfold Formatter.on_generate. destruct (json_loads raw) as [payload|msg];
    [|done].
  fold (pretty_shown json_dumps pretty payload).
  destruct (Formatter.to_entries payload) as [[|e es]|err]; simpl.
  - by rewrite outcome_of_pretty_shown.
  - destruct (encode_utf8 _); try destruct show_table; simpl;
      rewrite <- ?app_assoc; by rewrite outcome_of_pretty_shown.
  - split; [|done]. rewrite <- (app_nil_r (pretty_shown _ _ _)).
    by rewrite outcome_of_pretty_shown.
Qed.

Lemma app_on_generate_table json_dumps raw pretty show_table :
  outcome_of
    (App.on_generate json_loads json_dumps raw pretty show_table).1
  = match json_loads raw with
    | JSONDecodeError msg => Malformed (py "Invalid JSON: " ++ msg)
    | Parsed payload =>
        match App.to_directory_entries payload with
        | Raise _ => NothingShown
        | Ok [] => NoData
        | Ok es => Rendered (App.render_directory_markdown es)
        end
    end
  ∧ (App.on_generate json_loads json_dumps raw pretty show_table).2
    = match json_loads raw with
      | JSONDecodeError msg => Stopped
      | Parsed payload =>
          match App.to_directory_entries payload with
          | Raise e => Uncaught e
          | Ok [] => Stopped
          | Ok es =>
              match encode_utf8 (App.render_directory_markdown es) with
              | Ok _ => Completed
              | Raise e => Uncaught e
              end
          end
      end.
Proof.
  unfold App.on_generate. destruct (json_loads raw) as [payload|msg];
    [|done].
  fold (pretty_shown json_dumps pretty payload).
  destruct (App.to_directory_entries payload) as [[|e es]|err]; simpl.
  - by rewrite outcome_of_pretty_shown.
  - destruct (encode_utf8 _); try destruct show_table; simpl;
      rewrite <- ?app_assoc; by rewrite outcome_of_pretty_shown.
  - split; [|done]. rewrite <- (app_nil_r (pretty_shown _ _ _)).
    by rewrite outcome_of_pretty_shown.
Qed.

(** X15: the two checkboxes and [json.dumps] never change what the
    handler reports (error, warning or directory) nor how the run ends. *)
Theorem on_generate_checkboxes_irrelevant
    (dumps1 dumps2 : json → pystr) (raw : pystr)
    (pretty1 pretty2 show1 show2 : bool) :
  (outcome_of (Formatter.on_generate json_loads dumps1 raw pretty1 show1).1
   = outcome_of (Formatter.on_generate json_loads dumps2 raw pretty2 show2).1
   ∧ (Formatter.on_generate json_loads dumps1 raw pretty1 show1).2
     = (Formatter.on_generate json_loads dumps2 raw pretty2 show2).2)
  ∧ (outcome_of (App.on_generate json_loads dumps1 raw pretty1 show1).1
     = outcome_of (App.on_generate json_loads dumps2 raw pretty2 show2).1
     ∧ (App.on_generate json_loads dumps1 raw pretty1 show1).2
       = (App.on_generate json_loads dumps2 raw pretty2 show2).2).
Proof.
  destruct (formatter_on_generate_table dumps1 raw pretty1 show1) as [-> ->].
  destruct (formatter_on_generate_table dumps2 raw pretty2 show2) as [-> ->].
  destruct (app_on_generate_table dumps1 raw pretty1 show1) as [-> ->].
  destruct (app_on_generate_table dumps2 raw pretty2 show2) as [-> ->].
  done.
Qed.

(** X16: a directory is shown only when the text parsed and the extractor
    returned at least one entry; the text shown is the rendering of the
    extractor's entries, and a warning is shown only when the extractor
    returned no entry. *)
Theorem on_generate_rendered_only_if json_dumps raw pretty show_table :
  (∀ md,
     outcome_of
       (Formatter.on_generate json_loads json_dumps raw pretty show_table).1
     = Rendered md →
     ∃ payload es,
       json_loads raw = Parsed payload
       ∧ Formatter.to_entries payload = Ok es
       ∧ es ≠ []
       ∧ md = Formatter.render_directory es)
  ∧ (outcome_of
       (Formatter.on_generate json_loads json_dumps raw pretty show_table).1
     = NoData →
     ∃ payload,
       json_loads raw = Parsed payload
       ∧ Formatter.to_entries payload = Ok []).
Proof.
  destruct (formatter_on_generate_table json_dumps raw pretty show_table)
    as [-> _].
  destruct (json_loads raw) as [payload|msg];
    [|split; [intros md [=]|intros [=]]].
  destruct (Formatter.to_entries payload) as [[|e es]|err] eqn:Hes; simpl.
  - split; [intros md [=]|]. intros _. by exists payload.
  - split; [|intros [=]]. intros md [= <-]. by exists payload, (e :: es).
  - split; [intros md [=]|intros [=]].
Qed.
End handler_table.

Lemma on_generate_rendered_only_if_witness :
  ∃ payload es,
    accepting_loads (one_department [jane_doe]) [] = Parsed payload
    ∧ Formatter.to_entries payload = Ok es
    ∧ es ≠ []
    ∧ Formatter.render_directory [jane_doe_entry]
      = Formatter.render_directory es.
Proof.
  apply (proj1 (on_generate_rendered_only_if
                  (accepting_loads (one_department [jane_doe]))
                  (λ _, []) [] true false)).
  vm_compute. reflexivity.
Defined.


(** ** The pipeline as a whole *)

Lemma well_formed_name_not_blank (e : entry) :
  well_formed e → forallb isspace (name e) = false.
Proof.
  intros (Hne & Htrim & _). pose proof (strip_head (name e)) as Hhead.
  rewrite Htrim in Hhead. destruct (name e) as [|c n]; [done|].
  simpl. by rewrite Hhead.
Qed.

(** X17: whenever an extractor returns entries, the text its renderer
    makes of them begins with the header line, one empty line, and the
    four spaces that indent the first name. *)
Theorem pipeline_text_header (payload : json) (e : entry) (es : list entry) :
  (Formatter.to_entries payload = Ok (e :: es) →
   ∃ rest,
     Formatter.render_directory (e :: es)
     = py "## Employee Phone Number Directory" ++ [nl; nl] ++ py "    "
       ++ rest)
  ∧ (App.to_directory_entries payload = Ok (e :: es) →
     ∃ rest,
       App.render_directory_markdown (e :: es)
       = py "## Employee Phone Number Directory" ++ [nl; nl] ++ py "    "
         ++ rest).
Proof.
  assert (Formatter.to_entries payload = Ok (e :: es) →
          forallb isspace (name e) = false) as Hname.
  { intros [He _]%to_entries_well_formed%Forall_cons.
    by apply well_formed_name_not_blank. }
  split.
  - intros Hes%Hname. by apply render_directory_header.
  - intros Hes%app_entries_formatter%Hname.
    rewrite render_directory_markdown_lines, bind_cons.
    unfold app_entry_lines at 1.
    change ([py "    " ++ name e] ++ ?more) with ((py "    " ++ name e) :: more).
    rewrite <- app_comm_cons. by apply header_then_name.
Qed.

Lemma pipeline_text_header_witness :
  ∃ rest,
    Formatter.render_directory [jane_doe_entry]
    = py "## Employee Phone Number Directory" ++ [nl; nl] ++ py "    "
      ++ rest.
Proof.
  apply (proj1 (pipeline_text_header (one_department [jane_doe; jane_doe])
                  jane_doe_entry [])).
  vm_compute. reflexivity.
Defined.

(** X18: listing the same employees a second time changes nothing: the
    extractor returns the same entries, or raises the same exception. *)
Theorem repeated_employees_once (emps : list json) :
  Formatter.to_entries (one_department (emps ++ emps))
    = Formatter.to_entries (one_department emps)
  ∧ App.to_directory_entries (one_department (emps ++ emps))
    = App.to_directory_entries (one_department emps).
Proof.
  assert (∀ f, (∀ acc emp, f acc emp = (acc ++.) <$> f [] emp) →
            dedupe <$> for_each f (emps ++ emps) []
            = dedupe <$> for_each f emps []) as Htwice.
  { intros f Hf. rewrite for_each_app, (for_each_concat f Hf emps []).
    destruct (mapM (f []) emps) as [news|err] eqn:Hnews; simpl; [|done].
    rewrite (for_each_concat f Hf emps), Hnews. simpl. f_equal.
    rewrite !dedupe_first_occurrences. apply first_occurrences_absorbs.
    intros x Hx. by apply list_elem_of_fmap_2. }
  unfold Formatter.to_entries, App.to_directory_entries.
  rewrite (formatter_collect_walk (one_department (emps ++ emps))),
    (formatter_collect_walk (one_department emps)),
    (app_collect_walk (one_department (emps ++ emps))),
    (app_collect_walk (one_department emps)), !walk_one_department.
  split.
  - apply (Htwice _ formatter_add_employee_appends).
  - apply (Htwice _ app_add_employee_appends).
Qed.
